(** * Twitter-Covid-Data-Analysis: the collection pipeline and the CSV loader

    A shallow embedding of [covid_tweets.py] and of [load_tweets] from
    [transformer_sentiment.py].  Python objects live in a store; a value is
    either an immutable scalar or a reference into the store, so that the
    aliasing between a status object, its nested objects and the row built
    from them is the one the interpreter has. *)

From Stdlib Require Import ZArith String Ascii List Lia.
From stdpp Require Import base option list strings pretty gmap.

Local Open Scope Z_scope.
Local Open Scope string_scope.
Local Open Scope list_scope.

(** ** Python values, objects and the store *)

Module Py.

(** The exception classes that the two scripts can raise or meet. *)
Inductive exn : Type :=
| AttributeError
| KeyError
| TypeError
| ValueError
| RuntimeError
| UnicodeEncodeError.

#[global] Instance exn_eq_dec : EqDecision exn.
Proof. solve_decision. Defined.

Inductive result (A : Type) : Type :=
| Ok (a : A)
| Raise (e : exn).
Arguments Ok {A} a.
Arguments Raise {A} e.

Definition loc := nat.

(** [None], [str] and [int] are immutable and carried by value; lists,
    dicts and class instances are reached through a reference. *)
Inductive val : Type :=
| VNone
| VStr (s : string)
| VInt (z : Z)
| VRef (l : loc).
Arguments VRef l%_nat.

Inductive obj : Type :=
| OList (items : list val)
| ODict (entries : gmap string val)
| OInst (attrs : gmap string val).

(** The store: the object at address [l] is the [l]-th entry; allocation
    appends. *)
Abbreviation heap := (list obj).

Definition deref (h : heap) (v : val) : option obj :=
  match v with
  | VRef l => h !! l
  | _ => None
  end.

(** [v.name] for a data attribute.  None of the attribute names read by
    the scripts exists on [None], [str], [int], [list] or [dict], so the
    lookup raises [AttributeError] on anything but an instance carrying
    the attribute. *)
Definition getattr_in (h : heap) (v : val) (name : string) : result val :=
  match deref h v with
  | Some (OInst attrs) =>
      match attrs !! name with
      | Some x => Ok x
      | None => Raise AttributeError
      end
  | _ => Raise AttributeError
  end.

(** What the attribute lookup [v.get] finds: the entries of a dict (its
    bound [get] method), a data attribute of an instance that happens to
    be called [get] (no value of this model is callable), or nothing. *)
Inductive get_lookup : Type :=
| DictGet (entries : gmap string val)
| NotCallable.

Definition get_method_in (h : heap) (v : val) : result get_lookup :=
  match deref h v with
  | Some (ODict d) => Ok (DictGet d)
  | Some (OInst attrs) =>
      match attrs !! "get" with
      | Some _ => Ok NotCallable
      | None => Raise AttributeError
      end
  | _ => Raise AttributeError
  end.

(** [for x in v]: the elements of a list, the keys of a dict, the
    one-character strings of a [str]; anything else is not iterable.  The
    keys of a dict come in the map's order, not in insertion order; the
    one caller subscripts each key with a string, which fails on the first
    key whatever it is. *)
Definition iter_in (h : heap) (v : val) : result (list val) :=
  match v with
  | VStr s => Ok (map (fun c => VStr (String c EmptyString)) (list_ascii_of_string s))
  | VRef _ =>
      match deref h v with
      | Some (OList items) => Ok items
      | Some (ODict d) => Ok (map (fun kv => VStr (fst kv)) (map_to_list d))
      | _ => Raise TypeError
      end
  | _ => Raise TypeError
  end.

(** [v[key]] for a string key: only a dict accepts it. *)
Definition getitem_in (h : heap) (v : val) (key : string) : result val :=
  match deref h v with
  | Some (ODict d) =>
      match d !! key with
      | Some x => Ok x
      | None => Raise KeyError
      end
  | _ => Raise TypeError
  end.

(** The items of a list object, as a constructor that copies them sees
    them. *)
Definition list_items_in (h : heap) (v : val) : result (list val) :=
  match deref h v with
  | Some (OList items) => Ok items
  | _ => Raise TypeError
  end.

(** *** Computations over the store *)

Definition M (A : Type) : Type := heap -> result A * heap.

Definition ret {A} (a : A) : M A := fun h => (Ok a, h).

Definition raise {A} (e : exn) : M A := fun h => (Raise e, h).

Definition bind {A B} (m : M A) (k : A -> M B) : M B :=
  fun h =>
    match m h with
    | (Ok a, h') => k a h'
    | (Raise e, h') => (Raise e, h')
    end.

(** A computation that only inspects the store. *)
Definition read {A} (f : heap -> result A) : M A := fun h => (f h, h).

(** A list display or comprehension result: a new object. *)
Definition new_list (items : list val) : M val :=
  fun h => (Ok (VRef (length h)), h ++ [OList items]).

(** [try: body except e: handler]. *)
Definition try_except {A} (body : M A) (e : exn) (handler : M A) : M A :=
  fun h =>
    match body h with
    | (Raise e', h') => if decide (e' = e) then handler h' else (Raise e', h')
    | r => r
    end.

Declare Scope py_scope.
Delimit Scope py_scope with py.
Notation "x <- m ;; k" := (bind m (fun x => k))
  (at level 100, m at next level, right associativity) : py_scope.

Fixpoint mapM {A B} (f : A -> M B) (l : list A) : M (list B) :=
  match l with
  | [] => ret []
  | a :: l' => (b <- f a ;; bs <- mapM f l' ;; ret (b :: bs))%py
  end.

Definition getattr (v : val) (name : string) : M val :=
  read (fun h => getattr_in h v name).
Definition get_method (v : val) : M get_lookup :=
  read (fun h => get_method_in h v).
Definition iter (v : val) : M (list val) :=
  read (fun h => iter_in h v).
Definition getitem (v : val) (key : string) : M val :=
  read (fun h => getitem_in h v key).
Definition list_items (v : val) : M (list val) :=
  read (fun h => list_items_in h v).

(** [d.get(key, default)], the receiver's attribute lookup done, the
    arguments evaluated. *)
Definition call_get (g : get_lookup) (key : string) (dflt : val) : M val :=
  match g with
  | DictGet d => ret (default dflt (d !! key))
  | NotCallable => raise TypeError
  end.

End Py.

(** ** The pandas operations the scripts call *)

Module Pandas.
Import Py.
Local Open Scope py_scope.

(** A [pandas.DataFrame] as far as the scripts use one: the column labels
    and the rows of cells. *)
Record DataFrame (A : Type) : Type := {
  df_columns : list string;
  df_data : list (list A)
}.
Arguments df_columns {A} d.
Arguments df_data {A} d.

(** What a cell of a frame built from store values holds: the value as
    it went in, or, in a column that pandas made [float64], the float
    nearest to an integer or the missing number. *)
Inductive entry : Type :=
| Obj (v : val)
| Float (z : Z)
| NaN.

Definition INT64_MIN : Z := - 2 ^ 63.
Definition INT64_MAX : Z := 2 ^ 63 - 1.
Definition UINT64_MAX : Z := 2 ^ 64 - 1.

(** The dtype inference pandas runs over each column of a frame built
    from rows ([lib.maybe_convert_objects]), on the values of this model.
    The column is scanned from the top.  A string or a reference makes it
    an object column, and so does, while no [None] has been seen, an
    integer outside the 64-bit ranges or a negative one next to one above
    [INT64_MAX]. *)
Record seen : Type := {
  null_ : bool;
  int_ : bool;
  uint_ : bool;
  sint_ : bool
}.

Definition nothing_seen : seen :=
  {| null_ := false; int_ := false; uint_ := false; sint_ := false |}.

Fixpoint scan_column (col : list val) (s : seen) : option seen :=
  match col with
  | [] => Some s
  | VNone :: col' =>
      scan_column col'
        {| null_ := true; int_ := int_ s; uint_ := uint_ s; sint_ := sint_ s |}
  | VInt z :: col' =>
      if null_ s
      then scan_column col'
             {| null_ := true; int_ := true; uint_ := uint_ s; sint_ := sint_ s |}
      else
        let u := uint_ s || ((INT64_MAX <? z)%Z && (z <=? UINT64_MAX)%Z) in
        let g := sint_ s || ((INT64_MIN <=? z)%Z && (z <? 0)%Z) in
        if (u && g) || (UINT64_MAX <? z)%Z || (z <? INT64_MIN)%Z
        then None
        else scan_column col'
               {| null_ := false; int_ := true; uint_ := u; sint_ := g |}
  | _ => None
  end.

(** A column without objects that holds an integer and a [None] becomes
    [float64]; every other column keeps its values (integers alone are
    stored as 64-bit integers, the same numbers). *)
Definition float_column (col : list val) : bool :=
  match scan_column col nothing_seen with
  | Some s => null_ s && int_ s
  | None => false
  end.

Definition to_float (v : val) : entry :=
  match v with
  | VInt z => Float z
  | VNone => NaN
  | _ => Obj v
  end.

Definition convert (float : bool) (v : val) : entry :=
  if float then to_float v else Obj v.

(** [pd.DataFrame(rows, columns=columns)] for a list of row lists: the
    cells are copied out of the rows; rows shorter than the widest one are
    padded with missing values, and a width other than the number of labels
    is a [ValueError]; then every column gets its dtype and every cell is
    stored as its column's dtype has it.  No rows at all give an empty frame
    with the labels.  [Float z] stands for the float nearest to [z]; an
    integer of [2 ^ 1024] or more, of which pandas cannot make a float, is
    not singled out. *)
Definition widest (rows : list (list val)) : nat :=
  foldr (fun r w => Nat.max (length r) w) 0%nat rows.

Definition pad (w : nat) (r : list val) : list val :=
  r ++ replicate (w - length r) VNone.

Definition column_of (j : nat) (rows : list (list val)) : list val :=
  map (fun r => default VNone (r !! j)) rows.

Definition column_dtypes (width : nat) (rows : list (list val)) : list bool :=
  map (fun j => float_column (column_of j rows)) (seq 0 width).

Definition DataFrame_new (rows : list val) (labels : list string)
  : M (DataFrame entry) :=
  cells <- mapM list_items rows ;;
  match cells with
  | [] => ret {| df_columns := labels; df_data := [] |}
  | _ =>
      if Nat.eqb (widest cells) (length labels)
      then
        let padded := map (pad (widest cells)) cells in
        let dtypes := column_dtypes (widest cells) padded in
        ret {| df_columns := labels;
               df_data := map (zip_with convert dtypes) padded |}
      else raise ValueError
  end.

(** [df.to_csv(path, index=...)]: a header line with the labels, one line
    per row, fields separated by commas.  With [index=True] every line
    starts with one more field, empty in the header and the row number in
    a data line.  The text of a data cell ([str] of the value, quoted as
    the csv writer sees fit) is pandas' business and a parameter here; a
    label is quoted when it holds a comma, a quote or a line break. *)
Definition newline : string := String (ascii_of_nat 10) EmptyString.
Definition quote : string := String (ascii_of_nat 34) EmptyString.

Definition special (c : ascii) : bool :=
  existsb (Ascii.eqb c) [","%char; ascii_of_nat 34; ascii_of_nat 10; ascii_of_nat 13].

Fixpoint double_quotes (s : string) : string :=
  match s with
  | EmptyString => EmptyString
  | String c s' =>
      if Ascii.eqb c (ascii_of_nat 34)
      then String c (String c (double_quotes s'))
      else String c (double_quotes s')
  end.

Definition csv_label (s : string) : string :=
  if existsb special (list_ascii_of_string s)
  then quote ++ double_quotes s ++ quote
  else s.

Definition csv_line (fields : list string) : string :=
  String.concat "," fields ++ newline.

Section Writer.

Variable cell_text : heap -> entry -> string.

Definition to_csv (h : heap) (df : DataFrame entry) (index : bool) : string :=
  let header := (if index then [""] else []) ++ map csv_label (df_columns df) in
  let line i r := (if index then [pretty i] else []) ++ map (cell_text h) r in
  String.concat "" (map csv_line (header :: imap line (df_data df))).

End Writer.

(** [df[label]]: the column as a Series when exactly one label matches, a
    sub-frame when several do, [KeyError] when none does.  [.tolist()]
    exists on a Series only. *)
Inductive selection (A : Type) : Type :=
| Series (values : list A)
| Frame (d : DataFrame A).
Arguments Series {A} values.
Arguments Frame {A} d.

Fixpoint positions (label : string) (labels : list string) (i : nat) : list nat :=
  match labels with
  | [] => []
  | l :: labels' =>
      if String.eqb l label
      then i :: positions label labels' (S i)
      else positions label labels' (S i)
  end.

Definition column_at {A} (i : nat) (rows : list (list A)) : list A :=
  flat_map (fun r => option_list (r !! i)) rows.

Definition df_getitem {A} (df : DataFrame A) (label : string) : result (selection A) :=
  match positions label (df_columns df) 0 with
  | [] => Raise KeyError
  | [i] => Ok (Series (column_at i (df_data df)))
  | several =>
      Ok (Frame {| df_columns := map (fun _ => label) several;
                   df_data := map (fun r => flat_map (fun i => option_list (r !! i)) several)
                                  (df_data df) |})
  end.

Definition tolist {A} (s : selection A) : result (list A) :=
  match s with
  | Series values => Ok values
  | Frame _ => Raise AttributeError
  end.

(** [label in df.columns]. *)
Definition has_column {A} (df : DataFrame A) (label : string) : bool :=
  existsb (String.eqb label) (df_columns df).

End Pandas.

(** ** covid_tweets.py *)

Module CovidTweets.
Import Py Pandas.
Local Open Scope py_scope.

(** *** create_api *)

(** The part of [tweepy.OAuthHandler] and [tweepy.API] that [create_api]
    touches.  The environment hands out [str] or [None]; a [str] is held
    here by its UTF-8 bytes, so that it is ASCII when every byte is below
    128.  The handler of tweepy 3 (the one that has [api.search]) encodes
    a consumer key and a consumer secret that are [str] to ASCII and keeps
    the bytes, [UnicodeEncodeError] when one is not ASCII;
    [set_access_token] and [tweepy.API] store what they are given. *)
Inductive text : Type :=
| Str (s : string)
| Bytes (s : string).

Record OAuthHandler : Type := {
  consumer_key : option text;
  consumer_secret : option text;
  access_token : option text;
  access_token_secret : option text
}.

Record API : Type := {
  auth : OAuthHandler;
  wait_on_rate_limit : bool
}.

Definition is_ascii (s : string) : bool :=
  forallb (fun c => Nat.ltb (nat_of_ascii c) 128) (list_ascii_of_string s).

(** [v.encode('ascii')] when [v] is a [str]; [None] is left alone. *)
Definition encode_if_str (v : option string) : result (option text) :=
  match v with
  | Some s => if is_ascii s then Ok (Some (Bytes s)) else Raise UnicodeEncodeError
  | None => Ok None
  end.

Definition OAuthHandler_new (key secret : option string) : result OAuthHandler :=
  match encode_if_str key with
  | Raise e => Raise e
  | Ok key' =>
      match encode_if_str secret with
      | Raise e => Raise e
      | Ok secret' =>
          Ok {| consumer_key := key'; consumer_secret := secret';
                access_token := None; access_token_secret := None |}
      end
  end.

Definition set_access_token (a : OAuthHandler) (key secret : option string)
  : OAuthHandler :=
  {| consumer_key := consumer_key a; consumer_secret := consumer_secret a;
     access_token := Str <$> key; access_token_secret := Str <$> secret |}.

(** [os.getenv(name)]. *)
Definition getenv (environ : gmap string string) (name : string) : option string :=
  environ !! name.

(** Truth value of a [str] or [None]: [None] and the empty string are
    false. *)
Definition truthy (v : option string) : bool :=
  match v with
  | Some s => negb (String.eqb s "")
  | None => false
  end.

(** The builtin [all] over a list of such values. *)
Definition all (vs : list (option string)) : bool := forallb truthy vs.

Definition create_api (environ : gmap string string) : result API :=
  let consumer_key := getenv environ "TWITTER_CONSUMER_KEY" in
  let consumer_secret := getenv environ "TWITTER_CONSUMER_SECRET" in
  let access_token := getenv environ "TWITTER_ACCESS_TOKEN" in
  let access_secret := getenv environ "TWITTER_ACCESS_TOKEN_SECRET" in
  if negb (all [consumer_key; consumer_secret; access_token; access_secret])
  then Raise RuntimeError
  else
    match OAuthHandler_new consumer_key consumer_secret with
    | Raise e => Raise e
    | Ok auth =>
        let auth := set_access_token auth access_token access_secret in
        Ok {| auth := auth; wait_on_rate_limit := true |}
    end.

(** *** tweet_to_row *)

(** Line 46:
    [hashtags = [h["text"] for h in tweet.entities.get("hashtags", [])]].
    The receiver and its [get] are looked up before the default list is
    built; the comprehension's list is a new object. *)
Definition tweet_hashtags (tweet : val) : M val :=
  entities <- getattr tweet "entities" ;;
  get <- get_method entities ;;
  dflt <- new_list [] ;;
  annotations <- call_get get "hashtags" dflt ;;
  hs <- iter annotations ;;
  texts <- mapM (fun h => getitem h "text") hs ;;
  new_list texts.

(** Lines 47-50: the text of the retweeted status, the status's own text
    when that lookup raises [AttributeError]. *)
Definition tweet_text (tweet : val) : M val :=
  try_except
    (retweeted_status <- getattr tweet "retweeted_status" ;;
     getattr retweeted_status "full_text")
    AttributeError
    (getattr tweet "full_text").

(** Lines 52-62: the seven attribute reads, left to right. *)
Definition tweet_profile (tweet : val) : M (list val) :=
  u1 <- getattr tweet "user" ;;
  screen_name <- getattr u1 "screen_name" ;;
  u2 <- getattr tweet "user" ;;
  description <- getattr u2 "description" ;;
  u3 <- getattr tweet "user" ;;
  location <- getattr u3 "location" ;;
  u4 <- getattr tweet "user" ;;
  friends_count <- getattr u4 "friends_count" ;;
  u5 <- getattr tweet "user" ;;
  followers_count <- getattr u5 "followers_count" ;;
  u6 <- getattr tweet "user" ;;
  statuses_count <- getattr u6 "statuses_count" ;;
  retweet_count <- getattr tweet "retweet_count" ;;
  ret [screen_name; description; location; friends_count;
       followers_count; statuses_count; retweet_count].

Definition tweet_to_row (tweet : val) : M val :=
  hashtags <- tweet_hashtags tweet ;;
  text <- tweet_text tweet ;;
  profile <- tweet_profile tweet ;;
  new_list (profile ++ [text; hashtags]).

(** *** scrape_tweets *)

Definition columns : list string :=
  [ "username"; "description"; "location"; "following"; "followers";
    "totaltweets"; "retweetcount"; "text"; "hashtags" ].

(** Modelled from the spec: [tweepy.Cursor(...).items(limit)] is code of
    the tweepy library, not of this repository.  Section 4.2 gives its
    contract: the pages of the source flattened into one stream in the
    source's order, at most [limit] records, fewer if the source is
    exhausted first.  The contract is for [limit > 0]; tweepy documents a
    limit of zero as no cap, and that is what a non-positive limit gives
    here. *)
Definition Cursor_items (pages : list (list val)) (limit : Z) : list val :=
  if (0 <? limit)%Z
  then take (Z.to_nat limit) (concat pages)
  else concat pages.

Section Collector.

(** The external search capability behind [api.search]: the pages it
    serves for a query, a language filter and a tweet mode, as references
    to status objects of the store. *)
Variable search : API -> string -> string -> string -> list (list val).

Definition scrape_tweets (api : API) (query : string) (limit : Z)
  : M (DataFrame entry) :=
  let cursor := Cursor_items (search api query "en" "extended") limit in
  rows <- mapM tweet_to_row cursor ;;
  DataFrame_new rows columns.

(** *** save_to_csv and main *)

(** What a run can change: the store, the files (path to contents) and
    the lines printed. *)
Record world : Type := {
  w_heap : heap;
  w_files : gmap string string;
  w_stdout : list string
}.

Variable cell_text : heap -> entry -> string.

Definition save_to_csv (h : heap) (df : DataFrame entry) (filename : string)
    (files : gmap string string) : gmap string string :=
  <[filename := to_csv cell_text h df false]> files.

(** The command line after [argparse]: the positional query and the two
    options, absent when not given. *)
Record arguments : Type := {
  arg_query : string;
  arg_limit : option Z;
  arg_output : option string
}.

Definition main (environ : gmap string string) (args : arguments) (w : world)
  : result unit * world :=
  let query := arg_query args in
  let limit := default 100%Z (arg_limit args) in
  let output := default "scraped_tweets.csv" (arg_output args) in
  match create_api environ with
  | Raise e => (Raise e, w)
  | Ok api =>
      match scrape_tweets api query limit (w_heap w) with
      | (Raise e, h') =>
          (Raise e, {| w_heap := h'; w_files := w_files w; w_stdout := w_stdout w |})
      | (Ok df, h') =>
          (Ok tt, {| w_heap := h';
                     w_files := save_to_csv h' df output (w_files w);
                     w_stdout := w_stdout w ++ ["Scraping has completed!"] |})
      end
  end.

End Collector.

End CovidTweets.

(** ** transformer_sentiment.py *)

Module TransformerSentiment.
Import Py Pandas.

Section Loader.

(** [pd.read_csv]: the frame pandas parses out of the file of that name,
    or the exception it raises; the cells are whatever its type inference
    makes of the text. *)
Variable cell : Type.
Variable read_csv : string -> result (DataFrame cell).

Definition load_tweets (filename : string) : result (list cell) :=
  match read_csv filename with
  | Raise e => Raise e
  | Ok df =>
      if negb (has_column df "text")
      then Raise RuntimeError
      else
        match df_getitem df "text" with
        | Raise e => Raise e
        | Ok column => tolist column
        end
  end.

End Loader.

End TransformerSentiment.

(** ** Stores that only grow, closed stores, and what a run reads *)

Module Store.
Import Py Pandas CovidTweets.

Definition is_list (o : obj) : Prop :=
  match o with
  | OList _ => True
  | _ => False
  end.

(** [h'] is [h] with new list objects after it: what list displays and
    comprehensions do to a store. *)
Definition grows (h h' : heap) : Prop :=
  exists ext, h' = h ++ ext /\ Forall is_list ext.

(** A value that points into the first [n] objects, or nowhere. *)
Definition val_ok (n : nat) (v : val) : Prop :=
  match v with
  | VRef l => (l < n)%nat
  | _ => True
  end.

Definition obj_ok (n : nat) (o : obj) : Prop :=
  match o with
  | OList items => Forall (val_ok n) items
  | ODict d => map_Forall (fun _ => val_ok n) d
  | OInst attrs => map_Forall (fun _ => val_ok n) attrs
  end.

(** No object of the store refers to an address outside it: the
    interpreter keeps this of its own store. *)
Definition heap_closed (h : heap) : Prop := Forall (obj_ok (length h)) h.

#[global] Instance val_ok_dec n v : Decision (val_ok n v).
Proof. destruct v; simpl; apply _. Defined.

#[global] Instance obj_ok_dec n o : Decision (obj_ok n o).
Proof. destruct o; simpl; apply _. Defined.

#[global] Instance heap_closed_dec h : Decision (heap_closed h).
Proof. unfold heap_closed; apply _. Defined.

(** *** What [tweet_to_row] reads, as functions of a store left alone *)

Definition rbind {A B} (r : result A) (k : A -> result B) : result B :=
  match r with
  | Ok a => k a
  | Raise e => Raise e
  end.

Fixpoint rmap {A B} (f : A -> result B) (l : list A) : result (list B) :=
  match l with
  | [] => Ok []
  | a :: l' => rbind (f a) (fun b => rbind (rmap f l') (fun bs => Ok (b :: bs)))
  end.

(** The texts of the hashtag annotations, or the exception line 46
    raises. *)
Definition hashtags_in (h : heap) (tweet : val) : result (list val) :=
  rbind (getattr_in h tweet "entities") (fun entities =>
  rbind (get_method_in h entities) (fun get =>
  match get with
  | NotCallable => Raise TypeError
  | DictGet d =>
      match d !! "hashtags" with
      | None => Ok []
      | Some annotations =>
          rbind (iter_in h annotations) (rmap (fun x => getitem_in h x "text"))
      end
  end)).

(** Lines 47-50 and 53-59 only read: their outcome in a store is the run's
    outcome. *)
Definition text_in (h : heap) (tweet : val) : result val :=
  fst (tweet_text tweet h).

Definition profile_in (h : heap) (tweet : val) : result (list val) :=
  fst (tweet_profile tweet h).

(** The eight scalar cells and the hashtag texts of the row, or the first
    exception in evaluation order. *)
Definition row_in (h : heap) (tweet : val) : result (list val * list val) :=
  rbind (hashtags_in h tweet) (fun tags =>
  rbind (text_in h tweet) (fun text =>
  rbind (profile_in h tweet) (fun profile =>
  Ok (profile ++ [text], tags)))).

(** A row object of the store: its nine cells, the last one a reference
    to the list of hashtag texts. *)
Definition is_row (h : heap) (row : val) (cells tags : list val) : Prop :=
  exists l, deref h row = Some (OList (cells ++ [VRef l]))
            /\ h !! l = Some (OList tags).

(** The record's hashtag annotations are dicts whose [text] entries are
    the strings [names], in this order; a record whose entities have no
    [hashtags] entry has none. *)
Definition annotated (h : heap) (tweet : val) (names : list string) : Prop :=
  exists entities d,
    getattr_in h tweet "entities" = Ok entities
    /\ deref h entities = Some (ODict d)
    /\ ((d !! "hashtags" = None /\ names = [])
        \/ exists annotations items,
             d !! "hashtags" = Some annotations
             /\ deref h annotations = Some (OList items)
             /\ Forall2 (fun item name =>
                           exists e, deref h item = Some (ODict e)
                                     /\ e !! "text" = Some (VStr name))
                        items names).

(** The nine cells of the row of [tweet]: handle, bio, location,
    following, followers and posts of the author, the status's retweet
    count, the resolved text and a reference to a list object. *)
Definition row_of (h h' : heap) (tweet : val) (cells : list val) : Prop :=
  exists user handle bio location following followers posts reshares text taglist tags,
    cells = [handle; bio; location; following; followers; posts; reshares;
             text; taglist]
    /\ getattr_in h tweet "user" = Ok user
    /\ getattr_in h user "screen_name" = Ok handle
    /\ getattr_in h user "description" = Ok bio
    /\ getattr_in h user "location" = Ok location
    /\ getattr_in h user "friends_count" = Ok following
    /\ getattr_in h user "followers_count" = Ok followers
    /\ getattr_in h user "statuses_count" = Ok posts
    /\ getattr_in h tweet "retweet_count" = Ok reshares
    /\ text_in h tweet = Ok text
    /\ deref h' taglist = Some (OList tags).

(** A cell of a frame shows a value of a row: it is that value, or, in a
    column pandas made [float64], the float of that integer or the missing
    number for [None]. *)
Definition shows (v : val) (c : entry) : Prop :=
  c = Obj v \/ (exists z, v = VInt z /\ c = Float z) \/ (v = VNone /\ c = NaN).

(** A cell of a frame is a scalar or refers to an object among the first
    [n]. *)
Definition entry_ok (n : nat) (c : entry) : Prop :=
  match c with
  | Obj v => val_ok n v
  | _ => True
  end.

(** The record can be read in the store: line 46, the text and the
    profile all have a value. *)
Definition readable (h : heap) (tweet : val) : Prop :=
  exists cells tags, row_in h tweet = Ok (cells, tags).

(** The four environment variables of the module docstring. *)
Definition credential_names : list string :=
  [ "TWITTER_CONSUMER_KEY"; "TWITTER_CONSUMER_SECRET";
    "TWITTER_ACCESS_TOKEN"; "TWITTER_ACCESS_TOKEN_SECRET" ].

End Store.

(** ** A small store and environment to run the definitions on *)

Module Sample.
Import Py Pandas CovidTweets.

Definition author : obj :=
  OInst (list_to_map
    [ ("screen_name", VStr "alice"); ("description", VStr "nurse");
      ("location", VNone); ("friends_count", VInt 10);
      ("followers_count", VInt 20); ("statuses_count", VInt 30) ]).

Definition annotation (s : string) : obj :=
  ODict (list_to_map [ ("text", VStr s) ]).

(** Addresses 0-5: an author, three hashtag annotations, their list and
    the entities dict.  6: an original status.  7: a retweet of it with
    its own truncated text.  8: a status with neither text nor retweeted
    status.  9: an entities dict with no hashtags entry.  10: an original
    status with those entities. *)
Definition store : heap :=
  [ author;
    annotation "covid"; annotation "vaccine"; annotation "news";
    OList [VRef 1; VRef 2; VRef 3];
    ODict (list_to_map [ ("hashtags", VRef 4) ]);
    OInst (list_to_map
      [ ("user", VRef 0); ("entities", VRef 5); ("retweet_count", VInt 7);
        ("full_text", VStr "A") ]);
    OInst (list_to_map
      [ ("user", VRef 0); ("entities", VRef 5); ("retweet_count", VInt 7);
        ("full_text", VStr "A..."); ("retweeted_status", VRef 6) ]);
    OInst (list_to_map
      [ ("user", VRef 0); ("entities", VRef 5); ("retweet_count", VInt 0) ]);
    ODict (list_to_map [ ("symbols", VNone) ]);
    OInst (list_to_map
      [ ("user", VRef 0); ("entities", VRef 9); ("retweet_count", VInt 1);
        ("full_text", VStr "B") ]) ].

Definition environ : gmap string string :=
  list_to_map
    [ ("TWITTER_CONSUMER_KEY", "ck"); ("TWITTER_CONSUMER_SECRET", "cs");
      ("TWITTER_ACCESS_TOKEN", "at"); ("TWITTER_ACCESS_TOKEN_SECRET", "as") ].

(** A source that serves the same two pages to every request. *)
Definition search (_ : API) (_ _ _ : string) : list (list val) :=
  [ [VRef 7; VRef 6]; [VRef 10] ].

(** A source whose second page holds the status without any text. *)
Definition broken_search (_ : API) (_ _ _ : string) : list (list val) :=
  [ [VRef 7]; [VRef 8; VRef 6] ].

(** A source with nothing to serve. *)
Definition empty_search (_ : API) (_ _ _ : string) : list (list val) := [].

(** The session [create_api] builds from [environ]. *)
Definition api : API :=
  {| auth := {| consumer_key := Some (Bytes "ck");
                consumer_secret := Some (Bytes "cs");
                access_token := Some (Str "at");
                access_token_secret := Some (Str "as") |};
     wait_on_rate_limit := true |}.

Definition world0 : world :=
  {| w_heap := store; w_files := ∅; w_stdout := [] |}.

Definition cell_text (_ : heap) (c : entry) : string :=
  match c with
  | Obj (VStr s) => s
  | _ => ""
  end.

Definition tweets_csv : DataFrame string :=
  {| df_columns := ["username"; "text"; "hashtags"];
     df_data := [ ["alice"; "A"; "[]"]; ["bob"; "B"; "[]"] ] |}.

Definition read_csv (filename : string) : result (DataFrame string) :=
  if String.eqb filename "tweets.csv" then Ok tweets_csv else Raise ValueError.

End Sample.

(** ** transformer_sentiment.py, the stages after the loader *)

Module SentimentStage.
Import Py Pandas TransformerSentiment.

Definition MODEL_NAME : string :=
  "cardiffnlp/twitter-roberta-base-sentiment-latest".

(** One entry of the classifier's answer: a dict with the keys [label]
    and [score], the score a float that is left abstract. *)
Record prediction (S : Type) : Type := {
  label : string;
  score : S
}.
Arguments label {S} p.
Arguments score {S} p.

(** The cells of the frames of this script: a text as [read_csv] made it,
    a label, a score. *)
Inductive out_cell (C S : Type) : Type :=
| Text (c : C)
| Label (l : string)
| Score (s : S).
Arguments Text {C S} c.
Arguments Label {C S} l.
Arguments Score {C S} s.

(** [df.to_csv(path, index=...)] as in [Pandas.to_csv], for cells that are
    not store values. *)
Definition to_csv_of {A} (cell_text : A -> string) (df : DataFrame A)
    (index : bool) : string :=
  let header := (if index then [""] else []) ++ map csv_label (df_columns df) in
  let line i r := (if index then [pretty i] else []) ++ map cell_text r in
  String.concat "" (map csv_line (header :: imap line (df_data df))).

(** [pd.DataFrame(results)] for a list of such dicts: the keys of the
    dicts are the labels, one row per dict; an empty list gives a frame
    without any column. *)
Definition DataFrame_of_records {C S} (results : list (prediction S))
  : DataFrame (out_cell C S) :=
  match results with
  | [] => {| df_columns := []; df_data := [] |}
  | _ =>
      {| df_columns := ["label"; "score"];
         df_data := map (fun p => [Label (label p); Score (score p)]) results |}
  end.

Fixpoint rows3 {A} (xs ys zs : list A) : list (list A) :=
  match xs, ys, zs with
  | x :: xs', y :: ys', z :: zs' => [x; y; z] :: rows3 xs' ys' zs'
  | _, _, _ => []
  end.

(** [pd.DataFrame({"text": texts, "label": labels, "score": scores})] for
    a list and two selections of one frame: a sub-frame is no column, and
    the list has to be as long as the two columns (which, coming from one
    frame, are as long as each other); otherwise [ValueError]. *)
Definition DataFrame_of_dict {C S} (texts : list C)
    (labels scores : selection (out_cell C S))
  : result (DataFrame (out_cell C S)) :=
  match labels, scores with
  | Series ls, Series ss =>
      if Nat.eqb (length texts) (length ls) && Nat.eqb (length ls) (length ss)
      then Ok {| df_columns := ["text"; "label"; "score"];
                 df_data := rows3 (map Text texts) ls ss |}
      else Raise ValueError
  | _, _ => Raise ValueError
  end.

(** The frame of texts paired off with predictions: the [i]-th row is the
    [i]-th text with the label and the score of the [i]-th prediction. *)
Definition aligned {C S} (texts : list C) (preds : list (prediction S))
  : DataFrame (out_cell C S) :=
  {| df_columns := ["text"; "label"; "score"];
     df_data := zip_with (fun t p => [Text t; Label (label p); Score (score p)])
                         texts preds |}.

(** The command line after [argparse], and what a run can change. *)
Record arguments : Type := {
  arg_input : string;
  arg_output : option string
}.

Record world : Type := {
  w_files : gmap string string;
  w_stdout : list string
}.

Section Stage.

Variable C S : Type.

(** [transformers.pipeline(task, model=..., device=...)]: the classifier
    it loads, called with the texts and the truncation flag, or the
    exception either raises. *)
Variable pipeline :
  string -> string -> Z -> result (list C -> bool -> result (list (prediction S))).

(** [pd.read_csv] on the files as they are. *)
Variable read_csv : gmap string string -> string -> result (DataFrame C).

Variable cell_text : out_cell C S -> string.

Definition analyze_sentiment (texts : list C) : result (DataFrame (out_cell C S)) :=
  match pipeline "sentiment-analysis" MODEL_NAME (-1) with
  | Raise e => Raise e
  | Ok classifier =>
      match classifier texts true with
      | Raise e => Raise e
      | Ok results => Ok (DataFrame_of_records results)
      end
  end.

(** Line 47: the dict display reads [results["label"]], then
    [results["score"]], then the frame is built. *)
Definition output_frame (texts : list C) (results : DataFrame (out_cell C S))
  : result (DataFrame (out_cell C S)) :=
  match df_getitem results "label" with
  | Raise e => Raise e
  | Ok labels =>
      match df_getitem results "score" with
      | Raise e => Raise e
      | Ok scores => DataFrame_of_dict texts labels scores
      end
  end.

Definition save_results (texts : list C) (results : DataFrame (out_cell C S))
    (output_file : string) (files : gmap string string)
  : result (gmap string string) :=
  match output_frame texts results with
  | Raise e => Raise e
  | Ok output_df => Ok (<[output_file := to_csv_of cell_text output_df false]> files)
  end.

Definition main (args : arguments) (w : world) : result unit * world :=
  let output := default "sentiment_results.csv" (arg_output args) in
  match load_tweets C (read_csv (w_files w)) (arg_input args) with
  | Raise e => (Raise e, w)
  | Ok texts =>
      match analyze_sentiment texts with
      | Raise e => (Raise e, w)
      | Ok results =>
          match save_results texts results output (w_files w) with
          | Raise e => (Raise e, w)
          | Ok files =>
              (Ok tt,
               {| w_files := files;
                  w_stdout := w_stdout w
                              ++ [("Sentiment analysis complete: " ++ output)%string] |})
          end
      end
  end.

End Stage.

End SentimentStage.

(** ** More sample data *)

Module Sample2.
Import Py Pandas CovidTweets.

(** Addresses 0-3: an author, an annotation, an annotation without a
    text, their list.  4-6: entities with that list, with a null hashtags
    entry, with no entry.  7: a retweeted status that has no full text.
    8: a retweet of it.  9 and 10: statuses with the entities 4 and 5. *)
Definition store : heap :=
  [ Sample.author;
    Sample.annotation "covid";
    ODict (list_to_map [ ("indices", VNone) ]);
    OList [VRef 1; VRef 2];
    ODict (list_to_map [ ("hashtags", VRef 3) ]);
    ODict (list_to_map [ ("hashtags", VNone) ]);
    ODict ∅;
    OInst (list_to_map [ ("user", VRef 0); ("retweet_count", VInt 0) ]);
    OInst (list_to_map
      [ ("user", VRef 0); ("entities", VRef 6); ("retweet_count", VInt 2);
        ("full_text", VStr "own"); ("retweeted_status", VRef 7) ]);
    OInst (list_to_map
      [ ("user", VRef 0); ("entities", VRef 4); ("retweet_count", VInt 3);
        ("full_text", VStr "x") ]);
    OInst (list_to_map
      [ ("user", VRef 0); ("entities", VRef 5); ("retweet_count", VInt 4);
        ("full_text", VStr "y") ]) ].

(** A source whose second record has the annotation without a text. *)
Definition search (_ : API) (_ _ _ : string) : list (list val) :=
  [ [VRef 8; VRef 9]; [VRef 10] ].

(** A classifier that calls everything neutral, with score 1. *)
Definition neutral (texts : list string) (_ : bool)
  : result (list (SentimentStage.prediction nat)) :=
  Ok (map (fun _ => {| SentimentStage.label := "neutral";
                       SentimentStage.score := 1%nat |}) texts).

Definition pipeline (_ _ : string) (_ : Z)
  : result (list string -> bool -> result (list (SentimentStage.prediction nat))) :=
  Ok neutral.

Definition out_text (c : SentimentStage.out_cell string nat) : string :=
  match c with
  | SentimentStage.Text t => t
  | SentimentStage.Label l => l
  | SentimentStage.Score s => pretty s
  end.

(** Two files as pandas parses them: tweets with a text column, and a
    header with a text column over no rows. *)
Definition read_csv (_ : gmap string string) (filename : string)
  : result (DataFrame string) :=
  if String.eqb filename "tweets.csv" then Ok Sample.tweets_csv
  else if String.eqb filename "empty.csv"
       then Ok {| df_columns := ["username"; "text"]; df_data := [] |}
       else if String.eqb filename "notext.csv"
            then Ok {| df_columns := ["username"]; df_data := [["alice"]] |}
            else Raise ValueError.

Definition world0 : SentimentStage.world :=
  {| SentimentStage.w_files := ∅; SentimentStage.w_stdout := [] |}.

(** A file of the collection script as pandas parses it. *)
Definition scraped_csv : DataFrame string :=
  {| df_columns := columns;
     df_data :=
       [ ["alice"; "nurse"; ""; "10"; "20"; "30"; "7"; "A"; "['covid']"];
         ["bob"; ""; "Oslo"; "1"; "2"; "3"; "0"; "B"; "[]"] ] |}.

Definition read_scraped (_ : string) : result (DataFrame string) := Ok scraped_csv.

(** The four credentials, the consumer key with an accented letter (the
    two bytes of its UTF-8 form). *)
Definition accented : string :=
  String "c" (String "l" (String (ascii_of_nat 195) (String (ascii_of_nat 169) ""))).

Definition accented_environ : gmap string string :=
  <["TWITTER_CONSUMER_KEY" := accented]> Sample.environ.

(** The store with, at address 11, a status whose retweet count is
    missing ([None]). *)
Definition mixed_store : heap :=
  store
  ++ [ OInst (list_to_map
         [ ("user", VRef 0); ("entities", VRef 6); ("retweet_count", VNone);
           ("full_text", VStr "z") ]) ].

(** A source that serves a status with a retweet count and one without. *)
Definition mixed_search (_ : API) (_ _ _ : string) : list (list val) :=
  [ [VRef 8; VRef 11] ].

End Sample2.

(** * Properties *)

Section StoreLemmas.
Import Py CovidTweets Store.

Lemma grows_refl (h : heap) : grows h h.
Proof. exists []. rewrite app_nil_r. auto. Qed.

Lemma grows_trans (h1 h2 h3 : heap) : grows h1 h2 -> grows h2 h3 -> grows h1 h3.
Proof.
  intros (e1 & -> & F1) (e2 & -> & F2).
  exists (e1 ++ e2). rewrite <- app_assoc. split; [reflexivity|].
  apply Forall_app; auto.
Qed.

Lemma grows_app (h ext : heap) : Forall is_list ext -> grows h (h ++ ext).
Proof. intros F. exists ext. auto. Qed.

(** A valid reference keeps its target when the store grows. *)
Lemma deref_app (h ext : heap) (v : val) (o : obj) :
  deref h v = Some o -> deref (h ++ ext) v = Some o.
Proof.
  destruct v; simpl; try discriminate.
  intros H. rewrite lookup_app_l; [assumption|].
  eapply lookup_lt_Some; eassumption.
Qed.

Lemma deref_ok_app (h ext : heap) (v : val) :
  val_ok (length h) v -> deref (h ++ ext) v = deref h v.
Proof.
  destruct v; simpl; try reflexivity.
  intros H. apply lookup_app_l. assumption.
Qed.

(** A reference past the end of the store finds a list, if anything, once
    lists have been added. *)
Lemma deref_fresh (h ext : heap) (v : val) :
  Forall is_list ext -> deref h v = None ->
  deref (h ++ ext) v = None \/ exists items, deref (h ++ ext) v = Some (OList items).
Proof.
  intros F. destruct v; simpl; auto.
  intros H. apply lookup_ge_None in H.
  rewrite lookup_app_r by assumption.
  destruct (ext !! (l - length h)%nat) as [o|] eqn:E; auto.
  right. eapply Forall_lookup_1 in F; [|eassumption].
  destruct o; simpl in F; try contradiction. eauto.
Qed.

(** Attribute lookups do not see new lists at all. *)
Lemma getattr_in_grows (h ext : heap) (v : val) (name : string) :
  Forall is_list ext -> getattr_in (h ++ ext) v name = getattr_in h v name.
Proof.
  intros F. unfold getattr_in.
  destruct (deref h v) as [o|] eqn:E.
  - rewrite (deref_app _ ext _ _ E). reflexivity.
  - destruct (deref_fresh h ext v F E) as [-> | (items & ->)]; reflexivity.
Qed.

Lemma get_method_in_app (h ext : heap) (v : val) (g : get_lookup) :
  get_method_in h v = Ok g -> get_method_in (h ++ ext) v = Ok g.
Proof.
  unfold get_method_in. destruct (deref h v) as [o|] eqn:E; [|discriminate].
  rewrite (deref_app _ ext _ _ E). auto.
Qed.

Lemma iter_in_app (h ext : heap) (v : val) (items : list val) :
  iter_in h v = Ok items -> iter_in (h ++ ext) v = Ok items.
Proof.
  unfold iter_in. destruct v; auto.
  destruct (deref h (VRef l)) as [o|] eqn:E; [|discriminate].
  rewrite (deref_app _ ext _ _ E). auto.
Qed.

Lemma getitem_in_app (h ext : heap) (v : val) (key : string) (x : val) :
  getitem_in h v key = Ok x -> getitem_in (h ++ ext) v key = Ok x.
Proof.
  unfold getitem_in. destruct (deref h v) as [o|] eqn:E; [|discriminate].
  rewrite (deref_app _ ext _ _ E). auto.
Qed.

Lemma rmap_getitem_app (h ext : heap) (items tags : list val) :
  rmap (fun x => getitem_in h x "text") items = Ok tags ->
  rmap (fun x => getitem_in (h ++ ext) x "text") items = Ok tags.
Proof.
  revert tags. induction items as [|x items IH]; intros tags; simpl; auto.
  destruct (getitem_in h x "text") as [t|] eqn:E; simpl; [|discriminate].
  rewrite (getitem_in_app _ ext _ _ _ E). simpl.
  destruct (rmap _ items) as [ts|] eqn:E'; simpl; [|discriminate].
  rewrite (IH ts eq_refl). auto.
Qed.

(** A comprehension over reads is the pure map of the reads. *)
Lemma mapM_read {A B} (f : heap -> A -> result B) (l : list A) (h : heap) :
  mapM (fun a => read (fun hp => f hp a)) l h = (rmap (f h) l, h).
Proof.
  induction l as [|a l IH]; simpl; [reflexivity|].
  unfold bind, read at 1. destruct (f h a); simpl; [|reflexivity].
  rewrite IH. destruct (rmap (f h) l); reflexivity.
Qed.

End StoreLemmas.

Section PhaseLemmas.
Import Py CovidTweets Store.

Lemma getattr_in_raise (h : heap) (v : val) (name : string) (e : exn) :
  getattr_in h v name = Raise e -> e = AttributeError.
Proof.
  unfold getattr_in.
  destruct (deref h v) as [[| |attrs]|]; try congruence.
  destruct (attrs !! name); congruence.
Qed.

(** *** Lines 47-50 *)

Lemma tweet_text_reads (h : heap) (tweet : val) :
  tweet_text tweet h = (text_in h tweet, h).
Proof.
  unfold text_in, tweet_text, try_except, bind, getattr, read.
  destruct (getattr_in h tweet "retweeted_status") as [rs|e]; simpl.
  - destruct (getattr_in h rs "full_text") as [s|e]; simpl; [reflexivity|].
    destruct (decide (e = AttributeError)); reflexivity.
  - destruct (decide (e = AttributeError)); reflexivity.
Qed.

Lemma text_in_repost (h : heap) (tweet original s : val) :
  getattr_in h tweet "retweeted_status" = Ok original ->
  getattr_in h original "full_text" = Ok s ->
  text_in h tweet = Ok s.
Proof.
  intros H1 H2.
  unfold text_in, tweet_text, try_except, bind, getattr, read.
  rewrite H1, H2. reflexivity.
Qed.

Lemma text_in_own (h : heap) (tweet : val) (e : exn) :
  getattr_in h tweet "retweeted_status" = Raise e ->
  text_in h tweet = getattr_in h tweet "full_text".
Proof.
  intros H1. pose proof (getattr_in_raise _ _ _ _ H1) as ->.
  unfold text_in, tweet_text, try_except, bind, getattr, read.
  rewrite H1. simpl. reflexivity.
Qed.

Lemma text_in_fallback (h : heap) (tweet original : val) (e : exn) :
  getattr_in h tweet "retweeted_status" = Ok original ->
  getattr_in h original "full_text" = Raise e ->
  text_in h tweet = getattr_in h tweet "full_text".
Proof.
  intros H1 H2. pose proof (getattr_in_raise _ _ _ _ H2) as ->.
  unfold text_in, tweet_text, try_except, bind, getattr, read.
  rewrite H1, H2. simpl. reflexivity.
Qed.

Lemma text_in_grows (h ext : heap) (tweet : val) :
  Forall is_list ext -> text_in (h ++ ext) tweet = text_in h tweet.
Proof.
  intros F.
  unfold text_in, tweet_text, try_except, bind, getattr, read.
  rewrite (getattr_in_grows h ext) by assumption.
  destruct (getattr_in h tweet "retweeted_status") as [rs|e]; simpl.
  - rewrite (getattr_in_grows h ext) by assumption.
    destruct (getattr_in h rs "full_text"); simpl; [reflexivity|].
    destruct (decide _); simpl; [|reflexivity].
    rewrite (getattr_in_grows h ext) by assumption. reflexivity.
  - destruct (decide _); simpl; [|reflexivity].
    rewrite (getattr_in_grows h ext) by assumption. reflexivity.
Qed.

(** *** Lines 53-59 *)

Lemma tweet_profile_reads (h : heap) (tweet : val) :
  tweet_profile tweet h = (profile_in h tweet, h).
Proof.
  unfold profile_in, tweet_profile, bind, getattr, read, ret.
  destruct (getattr_in h tweet "user") as [u|]; simpl; [|reflexivity].
  repeat match goal with
         | |- context [getattr_in h ?v ?n] =>
             destruct (getattr_in h v n); simpl; [|reflexivity]
         end.
  reflexivity.
Qed.

(** The seven cells are the six attributes of the author and the status's
    own retweet count, in this order. *)
Lemma profile_in_ok (h : heap) (tweet : val) (profile : list val) :
  profile_in h tweet = Ok profile <->
  exists user handle bio location following followers posts reshares,
    getattr_in h tweet "user" = Ok user
    /\ getattr_in h user "screen_name" = Ok handle
    /\ getattr_in h user "description" = Ok bio
    /\ getattr_in h user "location" = Ok location
    /\ getattr_in h user "friends_count" = Ok following
    /\ getattr_in h user "followers_count" = Ok followers
    /\ getattr_in h user "statuses_count" = Ok posts
    /\ getattr_in h tweet "retweet_count" = Ok reshares
    /\ profile = [handle; bio; location; following; followers; posts; reshares].
Proof.
  unfold profile_in, tweet_profile, bind, getattr, read, ret. split.
  - destruct (getattr_in h tweet "user") as [u|] eqn:U; simpl; [|discriminate].
    destruct (getattr_in h u "screen_name") as [a|] eqn:A; simpl; [|discriminate].
    destruct (getattr_in h u "description") as [b|] eqn:B; simpl; [|discriminate].
    destruct (getattr_in h u "location") as [c|] eqn:C; simpl; [|discriminate].
    destruct (getattr_in h u "friends_count") as [d|] eqn:D; simpl; [|discriminate].
    destruct (getattr_in h u "followers_count") as [e|] eqn:E; simpl; [|discriminate].
    destruct (getattr_in h u "statuses_count") as [f|] eqn:F; simpl; [|discriminate].
    destruct (getattr_in h tweet "retweet_count") as [g|] eqn:G; simpl; [|discriminate].
    intros [= <-]. exists u, a, b, c, d, e, f, g. repeat split; assumption.
  - intros (u & a & b & c & d & e & f & g & U & A & B & C & D & E & F & G & ->).
    rewrite U; simpl. rewrite A; simpl. rewrite B; simpl. rewrite C; simpl.
    rewrite D; simpl. rewrite E; simpl. rewrite F; simpl. rewrite G; simpl.
    reflexivity.
Qed.

Lemma profile_in_length (h : heap) (tweet : val) (profile : list val) :
  profile_in h tweet = Ok profile -> length profile = 7%nat.
Proof.
  intros H. apply profile_in_ok in H.
  destruct H as (u & a & b & c & d & e & f & g & _ & _ & _ & _ & _ & _ & _ & _ & ->).
  reflexivity.
Qed.

Lemma profile_in_grows (h ext : heap) (tweet : val) :
  Forall is_list ext -> profile_in (h ++ ext) tweet = profile_in h tweet.
Proof.
  intros F. unfold profile_in, tweet_profile, bind, getattr, read, ret.
  repeat (rewrite (getattr_in_grows h ext) by assumption;
          match goal with
          | |- context [getattr_in h ?v ?n] =>
              destruct (getattr_in h v n); simpl; [|reflexivity]
          end).
  reflexivity.
Qed.

End PhaseLemmas.

Section HashtagLemmas.
Import Py CovidTweets Store.

Lemma getattr_in_app (h ext : heap) (v : val) (name : string) (x : val) :
  getattr_in h v name = Ok x -> getattr_in (h ++ ext) v name = Ok x.
Proof.
  unfold getattr_in. destruct (deref h v) as [o|] eqn:E; [|discriminate].
  rewrite (deref_app _ ext _ _ E). auto.
Qed.

Lemma hashtags_in_app (h ext : heap) (tweet : val) (tags : list val) :
  hashtags_in h tweet = Ok tags -> hashtags_in (h ++ ext) tweet = Ok tags.
Proof.
  unfold hashtags_in.
  destruct (getattr_in h tweet "entities") as [ent|] eqn:E; simpl; [|discriminate].
  rewrite (getattr_in_app _ ext _ _ _ E); simpl.
  destruct (get_method_in h ent) as [g|] eqn:G; simpl; [|discriminate].
  rewrite (get_method_in_app _ ext _ _ G); simpl.
  destruct g as [d|]; [|discriminate].
  destruct (d !! "hashtags") as [a|]; [|auto].
  destruct (iter_in h a) as [items|] eqn:I; simpl; [|discriminate].
  rewrite (iter_in_app _ ext _ _ I); simpl.
  apply rmap_getitem_app.
Qed.

(** Line 46 on a record whose annotations can be read: two new lists, the
    unused default and the comprehension's result. *)
Lemma tweet_hashtags_ok (h : heap) (tweet : val) (tags : list val) :
  hashtags_in h tweet = Ok tags ->
  tweet_hashtags tweet h
  = (Ok (VRef (length h + 1)), h ++ [OList []; OList tags]).
Proof.
  unfold hashtags_in, tweet_hashtags.
  unfold bind at 1, getattr at 1, read at 1.
  destruct (getattr_in h tweet "entities") as [ent|]; simpl; [|discriminate].
  unfold bind at 1, get_method at 1, read at 1.
  destruct (get_method_in h ent) as [[d|]|]; simpl; try discriminate.
  unfold bind at 1, new_list at 1.
  unfold bind at 1, ret at 1.
  unfold bind at 1, iter at 1, read at 1.
  unfold getitem.
  destruct (d !! "hashtags") as [a|]; simpl.
  - destruct (iter_in h a) as [items|] eqn:I; simpl; [|discriminate].
    rewrite (iter_in_app _ [OList []] _ _ I).
    intros R. unfold bind at 1.
    rewrite (mapM_read (fun hp x => getitem_in hp x "text")).
    rewrite (rmap_getitem_app _ [OList []] _ _ R).
    unfold new_list. rewrite last_length, <- app_assoc. simpl.
    repeat f_equal. lia.
  - intros [= <-].
    rewrite lookup_app_r by lia.
    rewrite Nat.sub_diag. simpl.
    unfold bind, ret, new_list. rewrite last_length, <- app_assoc. simpl.
    repeat f_equal. lia.
Qed.

(** Whatever line 46 does, it only adds lists to the store. *)
Lemma tweet_hashtags_grows (h h' : heap) (tweet : val) (r : result val) :
  tweet_hashtags tweet h = (r, h') -> grows h h'.
Proof.
  unfold tweet_hashtags.
  unfold bind at 1, getattr at 1, read at 1.
  destruct (getattr_in h tweet "entities") as [ent|]; simpl;
    [|intros [= _ <-]; apply grows_refl].
  unfold bind at 1, get_method at 1, read at 1.
  destruct (get_method_in h ent) as [g|]; simpl;
    [|intros [= _ <-]; apply grows_refl].
  unfold bind at 1, new_list at 1.
  assert (G1 : grows h (h ++ [OList []])).
  { apply grows_app. repeat constructor. }
  unfold bind at 1.
  destruct g as [d|]; simpl; [|intros [= _ <-]; exact G1].
  unfold bind at 1, iter at 1, read at 1.
  destruct (iter_in _ _) as [items|]; simpl; [|intros [= _ <-]; exact G1].
  unfold bind at 1. unfold getitem.
  rewrite (mapM_read (fun hp x => getitem_in hp x "text")).
  destruct (rmap _ items) as [ts|]; simpl; [|intros [= _ <-]; exact G1].
  unfold new_list. intros [= _ <-].
  eapply grows_trans; [exact G1|]. apply grows_app. repeat constructor.
Qed.

End HashtagLemmas.

Section ClosedStore.
Import Py CovidTweets Store.

Lemma closed_deref (h : heap) (v : val) (o : obj) :
  heap_closed h -> deref h v = Some o -> obj_ok (length h) o.
Proof.
  intros C. destruct v; simpl; try discriminate.
  intros H. eapply Forall_lookup_1 in C; eassumption.
Qed.

Lemma getattr_in_closed (h : heap) (v x : val) (name : string) :
  heap_closed h -> getattr_in h v name = Ok x -> val_ok (length h) x.
Proof.
  intros C. unfold getattr_in.
  destruct (deref h v) as [[| |attrs]|] eqn:E; try discriminate.
  destruct (attrs !! name) as [y|] eqn:L; [|discriminate].
  intros [= <-]. apply (closed_deref _ _ _ C E _ _ L).
Qed.

Lemma get_method_in_closed (h : heap) (v : val) (d : gmap string val) :
  heap_closed h -> get_method_in h v = Ok (DictGet d) ->
  map_Forall (fun _ => val_ok (length h)) d.
Proof.
  intros C. unfold get_method_in.
  destruct (deref h v) as [[|e|attrs]|] eqn:E; try discriminate.
  - intros [= <-]. apply (closed_deref _ _ _ C E).
  - destruct (attrs !! "get"); discriminate.
Qed.

Lemma iter_in_closed (h : heap) (v : val) (items : list val) :
  heap_closed h -> iter_in h v = Ok items -> Forall (val_ok (length h)) items.
Proof.
  intros C. unfold iter_in. destruct v; try discriminate.
  - intros [= <-]. apply Forall_forall. intros x Hx.
    apply list_elem_of_In, in_map_iff in Hx. destruct Hx as (c & <- & _). exact I.
  - destruct (deref h (VRef l)) as [[its|d|]|] eqn:E; try discriminate.
    + intros [= <-]. apply (closed_deref _ _ _ C E).
    + intros [= <-]. apply Forall_forall. intros x Hx.
      apply list_elem_of_In, in_map_iff in Hx. destruct Hx as (c & <- & _). exact I.
Qed.

(** Reads through a value that points into [h] are the same in any store
    that starts with [h]. *)
Lemma getattr_in_ok_app (h ext : heap) (v : val) (name : string) :
  val_ok (length h) v -> getattr_in (h ++ ext) v name = getattr_in h v name.
Proof. intros V. unfold getattr_in. rewrite deref_ok_app by assumption. reflexivity. Qed.

Lemma get_method_in_ok_app (h ext : heap) (v : val) :
  val_ok (length h) v -> get_method_in (h ++ ext) v = get_method_in h v.
Proof. intros V. unfold get_method_in. rewrite deref_ok_app by assumption. reflexivity. Qed.

Lemma iter_in_ok_app (h ext : heap) (v : val) :
  val_ok (length h) v -> iter_in (h ++ ext) v = iter_in h v.
Proof. intros V. unfold iter_in. rewrite deref_ok_app by assumption. reflexivity. Qed.

Lemma getitem_in_ok_app (h ext : heap) (v : val) (key : string) :
  val_ok (length h) v -> getitem_in (h ++ ext) v key = getitem_in h v key.
Proof. intros V. unfold getitem_in. rewrite deref_ok_app by assumption. reflexivity. Qed.

Lemma rmap_getitem_ok_app (h ext : heap) (items : list val) :
  Forall (val_ok (length h)) items ->
  rmap (fun x => getitem_in (h ++ ext) x "text") items
  = rmap (fun x => getitem_in h x "text") items.
Proof.
  induction 1 as [|x items V _ IH]; simpl; [reflexivity|].
  rewrite getitem_in_ok_app by assumption. rewrite IH. reflexivity.
Qed.

(** In a closed store line 46 fails exactly as its reads say, in any
    store that starts with it. *)
Lemma tweet_hashtags_fail (h ext : heap) (tweet : val) (e : exn) :
  heap_closed h -> val_ok (length h) tweet ->
  hashtags_in h tweet = Raise e ->
  exists ext', Forall is_list ext'
               /\ tweet_hashtags tweet (h ++ ext) = (Raise e, (h ++ ext) ++ ext').
Proof.
  intros C V. unfold hashtags_in, tweet_hashtags.
  unfold bind at 1, getattr at 1, read at 1.
  rewrite getattr_in_ok_app by assumption.
  destruct (getattr_in h tweet "entities") as [ent|e0] eqn:E; simpl.
  2:{ intros [= <-]. exists []. rewrite app_nil_r. auto. }
  pose proof (getattr_in_closed _ _ _ _ C E) as Vent.
  unfold bind at 1, get_method at 1, read at 1.
  rewrite get_method_in_ok_app by assumption.
  destruct (get_method_in h ent) as [g|e0] eqn:G; simpl.
  2:{ intros [= <-]. exists []. rewrite app_nil_r. auto. }
  unfold bind at 1, new_list at 1. unfold bind at 1.
  destruct g as [d|]; simpl.
  2:{ intros [= <-]. exists [OList []]. split; [repeat constructor|reflexivity]. }
  pose proof (get_method_in_closed _ _ _ C G) as Vd.
  destruct (d !! "hashtags") as [a|] eqn:L; simpl; [|discriminate].
  pose proof (Vd _ _ L) as Va. simpl in Va.
  unfold bind at 1, iter at 1, read at 1.
  rewrite <- app_assoc. rewrite iter_in_ok_app by assumption.
  destruct (iter_in h a) as [items|e0] eqn:I; simpl.
  2:{ intros [= <-]. exists [OList []]. split; [repeat constructor|].
      rewrite <- app_assoc. reflexivity. }
  pose proof (iter_in_closed _ _ _ C I) as Vitems.
  unfold bind at 1. unfold getitem.
  rewrite (mapM_read (fun hp x => getitem_in hp x "text")).
  rewrite rmap_getitem_ok_app by assumption.
  intros R. rewrite R.
  exists [OList []]. split; [repeat constructor|].
  rewrite <- app_assoc. reflexivity.
Qed.

End ClosedStore.

Section RowLemmas.
Import Py CovidTweets Store.

Lemma row_in_grows (h ext : heap) (tweet : val) (out : list val * list val) :
  Forall is_list ext -> row_in h tweet = Ok out -> row_in (h ++ ext) tweet = Ok out.
Proof.
  intros F. unfold row_in.
  destruct (hashtags_in h tweet) as [tags|] eqn:H; simpl; [|discriminate].
  rewrite (hashtags_in_app _ ext _ _ H); simpl.
  rewrite text_in_grows, profile_in_grows by assumption. auto.
Qed.

Lemma row_in_cells (h : heap) (tweet : val) (cells tags : list val) :
  row_in h tweet = Ok (cells, tags) ->
  exists profile text,
    hashtags_in h tweet = Ok tags /\ text_in h tweet = Ok text
    /\ profile_in h tweet = Ok profile /\ cells = profile ++ [text].
Proof.
  unfold row_in.
  destruct (hashtags_in h tweet) as [tags0|]; simpl; [|discriminate].
  destruct (text_in h tweet) as [text|]; simpl; [|discriminate].
  destruct (profile_in h tweet) as [profile|]; simpl; [|discriminate].
  intros [= <- <-]. exists profile, text. auto.
Qed.

Lemma row_in_length (h : heap) (tweet : val) (cells tags : list val) :
  row_in h tweet = Ok (cells, tags) -> length cells = 8%nat.
Proof.
  intros H. apply row_in_cells in H.
  destruct H as (profile & text & _ & _ & P & ->).
  rewrite length_app, (profile_in_length _ _ _ P). reflexivity.
Qed.

(** A record that can be read is normalized: three new lists, the last
    one the row, whose ninth cell is the comprehension's list. *)
Lemma tweet_to_row_ok (h : heap) (tweet : val) (cells tags : list val) :
  row_in h tweet = Ok (cells, tags) ->
  tweet_to_row tweet h
  = (Ok (VRef (length h + 2)),
     h ++ [OList []; OList tags; OList (cells ++ [VRef (length h + 1)])]).
Proof.
  intros H. apply row_in_cells in H.
  destruct H as (profile & text & Hh & Ht & Hp & ->).
  assert (F : Forall is_list [OList []; OList tags]) by (repeat constructor).
  unfold tweet_to_row. unfold bind at 1.
  rewrite (tweet_hashtags_ok _ _ _ Hh).
  unfold bind at 1. rewrite tweet_text_reads, text_in_grows, Ht by assumption.
  unfold bind at 1. rewrite tweet_profile_reads, profile_in_grows, Hp by assumption.
  unfold new_list. rewrite length_app. simpl.
  rewrite <- !app_assoc. simpl.
  repeat f_equal.
Qed.

Lemma is_row_fresh (h : heap) (cells tags : list val) :
  is_row (h ++ [OList []; OList tags; OList (cells ++ [VRef (length h + 1)])])
         (VRef (length h + 2)) cells tags.
Proof.
  exists (length h + 1)%nat. simpl. split.
  - rewrite lookup_app_r by lia.
    replace (length h + 2 - length h)%nat with 2%nat by lia. reflexivity.
  - rewrite lookup_app_r by lia.
    replace (length h + 1 - length h)%nat with 1%nat by lia. reflexivity.
Qed.

Lemma is_row_grows (h h' : heap) (row : val) (cells tags : list val) :
  grows h h' -> is_row h row cells tags -> is_row h' row cells tags.
Proof.
  intros (ext & -> & _) (l & D & T). exists l. split.
  - apply deref_app. assumption.
  - rewrite lookup_app_l; [assumption|]. eapply lookup_lt_Some; eassumption.
Qed.

Lemma is_row_inj (h : heap) (row : val) (c1 t1 c2 t2 : list val) :
  is_row h row c1 t1 -> is_row h row c2 t2 -> c1 = c2 /\ t1 = t2.
Proof.
  intros (l1 & D1 & T1) (l2 & D2 & T2).
  rewrite D1 in D2. injection D2 as D2.
  apply app_inj_tail in D2. destruct D2 as [-> [= ->]].
  rewrite T1 in T2. injection T2 as ->. auto.
Qed.

(** Whatever a normalization does, it only adds lists to the store. *)
Lemma tweet_to_row_grows (h h' : heap) (tweet : val) (r : result val) :
  tweet_to_row tweet h = (r, h') -> grows h h'.
Proof.
  unfold tweet_to_row. unfold bind at 1.
  destruct (tweet_hashtags tweet h) as [[hl|e] h1] eqn:H1;
    apply tweet_hashtags_grows in H1; [|intros [= _ <-]; exact H1].
  unfold bind at 1. rewrite tweet_text_reads.
  destruct (text_in h1 tweet); [|intros [= _ <-]; exact H1].
  unfold bind at 1. rewrite tweet_profile_reads.
  destruct (profile_in h1 tweet); [|intros [= _ <-]; exact H1].
  unfold new_list. intros [= _ <-].
  eapply grows_trans; [exact H1|]. apply grows_app. repeat constructor.
Qed.

(** The three phases of a normalization that returns. *)
Lemma tweet_to_row_inv (h h' : heap) (tweet row : val) :
  tweet_to_row tweet h = (Ok row, h') ->
  exists hl h1 text profile,
    tweet_hashtags tweet h = (Ok hl, h1)
    /\ text_in h tweet = Ok text
    /\ profile_in h tweet = Ok profile
    /\ row = VRef (length h1)
    /\ h' = h1 ++ [OList (profile ++ [text; hl])].
Proof.
  unfold tweet_to_row. unfold bind at 1.
  destruct (tweet_hashtags tweet h) as [[hl|e] h1] eqn:H1; [|discriminate].
  pose proof (tweet_hashtags_grows _ _ _ _ H1) as (ext & -> & F).
  unfold bind at 1. rewrite tweet_text_reads, text_in_grows by assumption.
  destruct (text_in h tweet) as [text|] eqn:T; [|discriminate].
  unfold bind at 1. rewrite tweet_profile_reads, profile_in_grows by assumption.
  destruct (profile_in h tweet) as [profile|] eqn:P; [|discriminate].
  unfold new_list. intros [= <- <-].
  exists hl, (h ++ ext), text, profile. auto.
Qed.

(** A normalization fails as soon as the text or the profile cannot be
    read, whatever line 46 did. *)
Lemma tweet_to_row_raise (h : heap) (tweet : val) :
  (exists e, text_in h tweet = Raise e) \/ (exists e, profile_in h tweet = Raise e) ->
  exists e h', tweet_to_row tweet h = (Raise e, h').
Proof.
  intros H. unfold tweet_to_row. unfold bind at 1.
  destruct (tweet_hashtags tweet h) as [[hl|e] h1] eqn:H1; [|eauto].
  pose proof (tweet_hashtags_grows _ _ _ _ H1) as (ext & -> & F).
  unfold bind at 1. rewrite tweet_text_reads, text_in_grows by assumption.
  destruct (text_in h tweet) as [text|] eqn:T; [|eauto].
  unfold bind at 1. rewrite tweet_profile_reads, profile_in_grows by assumption.
  destruct H as [[e H]|[e H]]; [discriminate|]. rewrite H. eauto.
Qed.

(** In a closed store a failed read fails the run with the same
    exception, in any store grown from it. *)
Lemma tweet_to_row_fail (h ext : heap) (tweet : val) (e : exn) :
  heap_closed h -> val_ok (length h) tweet -> Forall is_list ext ->
  row_in h tweet = Raise e ->
  exists ext', Forall is_list ext'
               /\ tweet_to_row tweet (h ++ ext) = (Raise e, (h ++ ext) ++ ext').
Proof.
  intros C V F. unfold row_in.
  destruct (hashtags_in h tweet) as [tags|e0] eqn:H; simpl.
  - intros R. unfold tweet_to_row. unfold bind at 1.
    rewrite (tweet_hashtags_ok _ _ _ (hashtags_in_app _ ext _ _ H)).
    assert (F2 : Forall is_list (ext ++ [OList []; OList tags])).
    { apply Forall_app. split; [assumption|repeat constructor]. }
    exists [OList []; OList tags]. split; [repeat constructor|].
    rewrite <- app_assoc in *.
    unfold bind at 1. rewrite tweet_text_reads, text_in_grows by assumption.
    destruct (text_in h tweet) as [text|]; simpl in R; [|congruence].
    unfold bind at 1. rewrite tweet_profile_reads, profile_in_grows by assumption.
    destruct (profile_in h tweet) as [profile|]; simpl in R; [discriminate|congruence].
  - intros [= <-].
    destruct (tweet_hashtags_fail h ext tweet e0 C V H) as (ext' & F' & R).
    exists ext'. split; [assumption|].
    unfold tweet_to_row. unfold bind at 1. rewrite R. reflexivity.
Qed.

End RowLemmas.

(** ** The record normalizer *)

Section Normalizer.
Import Py CovidTweets Store.

Lemma annotated_hashtags_in (h : heap) (tweet : val) (names : list string) :
  annotated h tweet names -> hashtags_in h tweet = Ok (map VStr names).
Proof.
  intros (ent & d & E & D & H). unfold hashtags_in.
  rewrite E; simpl. unfold get_method_in. rewrite D; simpl.
  destruct H as [[-> ->]|(a & items & -> & A & F)]; [reflexivity|].
  assert (I : iter_in h a = Ok items).
  { unfold iter_in. destruct a; simpl in A; try discriminate.
    simpl. rewrite A. reflexivity. }
  rewrite I; simpl. clear I A.
  induction F as [|item name items names (e & De & Le) _ IH]; simpl; [reflexivity|].
  unfold getitem_in at 1. rewrite De, Le; simpl. rewrite IH. reflexivity.
Qed.

(** C1, as the code has it: the text cell of the row (the eighth, after
    the seven profile cells) is the full text of the retweeted status when
    the record has a retweeted status that has a full text, whatever the
    record's own text is; it is the record's own full text when the record
    has no retweeted status, and also when it has one that has no full text.
    In all three cases the row is built, as soon as lines 46 and 53-59 do not
    raise. *)
Theorem tweet_to_row_body_text (h h1 : heap) (tweet hl : val) (profile : list val) :
  tweet_hashtags tweet h = (Ok hl, h1) ->
  tweet_profile tweet h = (Ok profile, h) ->
  length profile = 7%nat
  /\ (forall original body,
        getattr_in h tweet "retweeted_status" = Ok original ->
        getattr_in h original "full_text" = Ok body ->
        tweet_to_row tweet h
        = (Ok (VRef (length h1)), h1 ++ [OList (profile ++ [body; hl])]))
  /\ (forall body,
        getattr_in h tweet "retweeted_status" = Raise AttributeError ->
        getattr_in h tweet "full_text" = Ok body ->
        tweet_to_row tweet h
        = (Ok (VRef (length h1)), h1 ++ [OList (profile ++ [body; hl])]))
  /\ (forall original body,
        getattr_in h tweet "retweeted_status" = Ok original ->
        getattr_in h original "full_text" = Raise AttributeError ->
        getattr_in h tweet "full_text" = Ok body ->
        tweet_to_row tweet h
        = (Ok (VRef (length h1)), h1 ++ [OList (profile ++ [body; hl])])).
Proof.
  intros H P.
  assert (P' : profile_in h tweet = Ok profile) by (unfold profile_in; rewrite P; reflexivity).
  pose proof (tweet_hashtags_grows _ _ _ _ H) as (ext & -> & F).
  assert (R : forall body, text_in h tweet = Ok body ->
      tweet_to_row tweet h
      = (Ok (VRef (length (h ++ ext))), (h ++ ext) ++ [OList (profile ++ [body; hl])])).
  { intros body T. unfold tweet_to_row. unfold bind at 1. rewrite H.
    unfold bind at 1. rewrite tweet_text_reads, text_in_grows, T by assumption.
    unfold bind at 1. rewrite tweet_profile_reads, profile_in_grows, P' by assumption.
    reflexivity. }
  split; [eapply profile_in_length; eassumption|]. split; [|split].
  - intros original body H1 H2. apply R. eapply text_in_repost; eassumption.
  - intros body H1 H2. apply R. rewrite (text_in_own _ _ _ H1). assumption.
  - intros original body H1 H2 H3. apply R.
    rewrite (text_in_fallback _ _ _ _ H1 H2). assumption.
Qed.

Lemma tweet_to_row_body_text_witness :
  tweet_to_row (VRef 7) Sample.store
  = (Ok (VRef 13),
     (Sample.store ++ [OList []; OList [VStr "covid"; VStr "vaccine"; VStr "news"]])
     ++ [OList ([VStr "alice"; VStr "nurse"; VNone; VInt 10; VInt 20; VInt 30; VInt 7]
                ++ [VStr "A"; VRef 12])])
  /\ tweet_to_row (VRef 10) Sample.store
     = (Ok (VRef 13),
        (Sample.store ++ [OList []; OList []])
        ++ [OList ([VStr "alice"; VStr "nurse"; VNone; VInt 10; VInt 20; VInt 30; VInt 1]
                   ++ [VStr "B"; VRef 12])])
  /\ tweet_to_row (VRef 8) Sample2.store
     = (Ok (VRef 13),
        (Sample2.store ++ [OList []; OList []])
        ++ [OList ([VStr "alice"; VStr "nurse"; VNone; VInt 10; VInt 20; VInt 30; VInt 2]
                   ++ [VStr "own"; VRef 12])]).
Proof.
  split; [|split].
  - refine (proj1 (proj2 (tweet_to_row_body_text Sample.store
              (Sample.store ++ [OList []; OList [VStr "covid"; VStr "vaccine"; VStr "news"]])
              (VRef 7) (VRef 12)
              [VStr "alice"; VStr "nurse"; VNone; VInt 10; VInt 20; VInt 30; VInt 7] _ _))
              (VRef 6) (VStr "A") _ _); reflexivity.
  - refine (proj1 (proj2 (proj2 (tweet_to_row_body_text Sample.store
              (Sample.store ++ [OList []; OList []])
              (VRef 10) (VRef 12)
              [VStr "alice"; VStr "nurse"; VNone; VInt 10; VInt 20; VInt 30; VInt 1] _ _)))
              (VStr "B") _ _); reflexivity.
  - refine (proj2 (proj2 (proj2 (tweet_to_row_body_text Sample2.store
              (Sample2.store ++ [OList []; OList []])
              (VRef 8) (VRef 12)
              [VStr "alice"; VStr "nurse"; VNone; VInt 10; VInt 20; VInt 30; VInt 2] _ _)))
              (VRef 7) (VStr "own") _ _ _); reflexivity.
Defined.

(** A record that carries a retweeted status does not always get the full
    text of that status in its row: the status at address 8 of
    [Sample2.store] is a retweet of the one at address 7, which has no full
    text, and its row has the retweet's own text. *)
Lemma tweet_to_row_body_text_counterexample :
  ~ (forall (h h' : heap) (tweet original row : val) (cells tags : list val),
       getattr_in h tweet "retweeted_status" = Ok original ->
       tweet_to_row tweet h = (Ok row, h') ->
       is_row h' row cells tags ->
       exists body,
         getattr_in h original "full_text" = Ok body
         /\ cells !! 7%nat = Some body).
Proof.
  intros H.
  destruct (H Sample2.store
              (Sample2.store
               ++ [OList []; OList [];
                   OList [VStr "alice"; VStr "nurse"; VNone; VInt 10; VInt 20;
                          VInt 30; VInt 2; VStr "own"; VRef 12]])
              (VRef 8) (VRef 7) (VRef 13)
              [VStr "alice"; VStr "nurse"; VNone; VInt 10; VInt 20; VInt 30;
               VInt 2; VStr "own"] [])
    as (body & B & _).
  - reflexivity.
  - reflexivity.
  - exists 12%nat. split; reflexivity.
  - discriminate B.
Qed.

(** C5: the ninth cell of the row refers to a list holding exactly the
    texts of the record's hashtag annotations, as strings, in the order in
    which they are attached; without annotations (an empty list or no
    [hashtags] entry) the list is empty, and line 46 raises nothing. *)
Theorem tweet_to_row_hashtags (h : heap) (tweet : val) (names : list string) :
  annotated h tweet names ->
  tweet_hashtags tweet h
  = (Ok (VRef (length h + 1)), h ++ [OList []; OList (map VStr names)])
  /\ (forall text profile,
        tweet_text tweet h = (Ok text, h) ->
        tweet_profile tweet h = (Ok profile, h) ->
        tweet_to_row tweet h
        = (Ok (VRef (length h + 2)),
           h ++ [OList []; OList (map VStr names);
                 OList ((profile ++ [text]) ++ [VRef (length h + 1)])])).
Proof.
  intros A. apply annotated_hashtags_in in A. split.
  - apply tweet_hashtags_ok. assumption.
  - intros text profile T P. apply tweet_to_row_ok.
    unfold row_in, text_in, profile_in. rewrite A, T, P. reflexivity.
Qed.

Lemma tweet_to_row_hashtags_witness :
  tweet_hashtags (VRef 6) Sample.store
  = (Ok (VRef 12),
     Sample.store ++ [OList []; OList (map VStr ["covid"; "vaccine"; "news"])])
  /\ tweet_hashtags (VRef 10) Sample.store
     = (Ok (VRef 12), Sample.store ++ [OList []; OList (map VStr [])]).
Proof.
  split.
  - refine (proj1 (tweet_to_row_hashtags Sample.store (VRef 6) _ _)).
    exists (VRef 5), (list_to_map [("hashtags", VRef 4)]).
    repeat split. right.
    exists (VRef 4), [VRef 1; VRef 2; VRef 3]. repeat split.
    repeat constructor;
      (eexists; split; [reflexivity|reflexivity]).
  - refine (proj1 (tweet_to_row_hashtags Sample.store (VRef 10) _ _)).
    exists (VRef 9), (list_to_map [("symbols", VNone)]).
    repeat split. left. split; reflexivity.
Defined.

(** C6: normalizing a record leaves every object of the store where and
    as it was, and normalizing the same record again gives an equal row:
    the same eight scalar cells and a list of the same hashtag texts (or the
    same exception).  The store is closed, as the interpreter's is. *)
Theorem tweet_to_row_pure (h h1 h2 : heap) (tweet : val) (r1 r2 : result val) :
  heap_closed h -> val_ok (length h) tweet ->
  tweet_to_row tweet h = (r1, h1) ->
  tweet_to_row tweet h1 = (r2, h2) ->
  (exists new1 new2, h1 = h ++ new1 /\ h2 = h ++ new1 ++ new2)
  /\ match r1, r2 with
     | Ok row1, Ok row2 =>
         exists cells tags, is_row h2 row1 cells tags /\ is_row h2 row2 cells tags
     | Raise e1, Raise e2 => e1 = e2
     | _, _ => False
     end.
Proof.
  intros C V R1 R2.
  destruct (row_in h tweet) as [[cells tags]|e] eqn:R.
  - pose proof (tweet_to_row_ok _ _ _ _ R) as E1.
    rewrite E1 in R1. injection R1 as <- <-.
    assert (F : Forall is_list
                  [OList []; OList tags; OList (cells ++ [VRef (length h + 1)])])
      by (repeat constructor).
    pose proof (tweet_to_row_ok _ _ _ _ (row_in_grows _ _ _ _ F R)) as E2.
    rewrite E2 in R2. injection R2 as <- <-.
    split.
    + eexists _, _. split; [reflexivity|]. rewrite app_assoc. reflexivity.
    + exists cells, tags. split.
      * eapply is_row_grows; [|apply is_row_fresh]. apply grows_app. repeat constructor.
      * apply is_row_fresh.
  - destruct (tweet_to_row_fail h [] tweet e C V (List.Forall_nil _) R) as (new1 & F1 & E1).
    rewrite app_nil_r in E1. rewrite E1 in R1. injection R1 as <- <-.
    destruct (tweet_to_row_fail h new1 tweet e C V F1 R) as (new2 & F2 & E2).
    rewrite E2 in R2. injection R2 as <- <-.
    split; [|reflexivity].
    eexists _, _. split; [reflexivity|]. rewrite app_assoc. reflexivity.
Qed.

Lemma tweet_to_row_pure_witness :
  let h1 := snd (tweet_to_row (VRef 7) Sample.store) in
  let h2 := snd (tweet_to_row (VRef 7) h1) in
  exists cells tags,
    is_row h2 (VRef 13) cells tags /\ is_row h2 (VRef 16) cells tags.
Proof.
  refine (proj2 (tweet_to_row_pure Sample.store _ _ (VRef 7)
                   (Ok (VRef 13)) (Ok (VRef 16)) _ _ _ _)).
  - apply (bool_decide_unpack _). vm_compute. exact I.
  - simpl. lia.
  - reflexivity.
  - reflexivity.
Defined.

End Normalizer.

(** ** The collector and the sink *)

Section CollectorLemmas.
Import Py Pandas CovidTweets Store.

Lemma tweet_hashtags_inv (h h1 : heap) (tweet hl : val) :
  tweet_hashtags tweet h = (Ok hl, h1) ->
  exists tags, deref h1 hl = Some (OList tags).
Proof.
  unfold tweet_hashtags.
  unfold bind at 1, getattr at 1, read at 1.
  destruct (getattr_in h tweet "entities") as [ent|]; simpl; [|discriminate].
  unfold bind at 1, get_method at 1, read at 1.
  destruct (get_method_in h ent) as [g|]; simpl; [|discriminate].
  unfold bind at 1, new_list at 1. unfold bind at 1.
  destruct g as [d|]; simpl; [|discriminate].
  unfold bind at 1, iter at 1, read at 1.
  destruct (iter_in _ _) as [items|]; simpl; [|discriminate].
  unfold bind at 1. unfold getitem.
  rewrite (mapM_read (fun hp x => getitem_in hp x "text")).
  destruct (rmap _ items) as [ts|]; simpl; [|discriminate].
  unfold new_list. intros [= <- <-].
  exists ts. simpl. rewrite lookup_app_r by lia.
  rewrite Nat.sub_diag. reflexivity.
Qed.

Lemma mapM_tweet_to_row_grows (items : list val) (h h' : heap)
    (r : result (list val)) :
  mapM tweet_to_row items h = (r, h') -> grows h h'.
Proof.
  revert h h' r. induction items as [|t items IH]; intros h h' r; simpl.
  - intros [= _ <-]. apply grows_refl.
  - unfold bind at 1.
    destruct (tweet_to_row t h) as [[row|e] h1] eqn:R;
      apply tweet_to_row_grows in R; [|intros [= _ <-]; exact R].
    unfold bind at 1.
    destruct (mapM tweet_to_row items h1) as [[rows|e] h2] eqn:M;
      apply IH in M; simpl; intros [= _ <-]; eapply grows_trans; eassumption.
Qed.

Lemma row_of_shrink (h h1 h' : heap) (tweet : val) (cells : list val) :
  grows h h1 -> row_of h1 h' tweet cells -> row_of h h' tweet cells.
Proof.
  intros (ext & -> & F).
  intros (u & a & b & c & d & e & f & g & text & tl & tags & H).
  rewrite !getattr_in_grows, text_in_grows in H by assumption.
  exists u, a, b, c, d, e, f, g, text, tl, tags. exact H.
Qed.

(** The rows of a comprehension that ran to its end: one per record, in
    the records' order, each a list object of nine cells. *)
Lemma mapM_tweet_to_row_inv (items rows : list val) (h h' : heap) :
  mapM tweet_to_row items h = (Ok rows, h') ->
  exists cells,
    Forall2 (fun r c => list_items_in h' r = Ok c) rows cells
    /\ Forall2 (row_of h h') items cells.
Proof.
  revert h rows. induction items as [|t items IH]; intros h rows; simpl.
  - intros [= <- <-]. exists []. split; constructor.
  - unfold bind at 1.
    destruct (tweet_to_row t h) as [[row|e] h1] eqn:R; [|discriminate].
    unfold bind at 1.
    destruct (mapM tweet_to_row items h1) as [[rows'|e] h2] eqn:M; [|discriminate].
    simpl. intros [= <- <-].
    pose proof (tweet_to_row_grows _ _ _ _ R) as G1.
    pose proof (mapM_tweet_to_row_grows _ _ _ _ M) as (ext2 & -> & F2).
    destruct (IH _ _ M) as (cells & L & O).
    apply tweet_to_row_inv in R.
    destruct R as (hl & hx & text & profile & H & T & P & -> & ->).
    destruct (tweet_hashtags_inv _ _ _ _ H) as (tags & D).
    exists ((profile ++ [text; hl]) :: cells). split; constructor.
    + unfold list_items_in. simpl. rewrite lookup_app_l by (rewrite length_app; simpl; lia).
      rewrite lookup_app_r by lia. rewrite Nat.sub_diag. reflexivity.
    + exact L.
    + apply profile_in_ok in P.
      destruct P as (u & a & b & c & d & e & f & g & P).
      exists u, a, b, c, d, e, f, g, text, hl, tags.
      destruct P as (? & ? & ? & ? & ? & ? & ? & ? & ->).
      repeat split; try assumption.
      rewrite <- app_assoc. apply deref_app. assumption.
    + eapply Forall2_impl; [exact O|].
      intros t' c'. apply row_of_shrink. exact G1.
Qed.

(** Records that can all be read are all normalized. *)
Lemma mapM_tweet_to_row_ok (items : list val) (h : heap) :
  Forall (readable h) items ->
  exists rows h', mapM tweet_to_row items h = (Ok rows, h').
Proof.
  revert h. induction items as [|t items IH]; intros h F; simpl; [eexists _, _; reflexivity|].
  apply Forall_cons in F. destruct F as [(cells & tags & R) F].
  unfold bind at 1. rewrite (tweet_to_row_ok _ _ _ _ R).
  unfold bind at 1.
  edestruct (IH (h ++ [OList []; OList tags; OList (cells ++ [VRef (length h + 1)])]))
    as (rows & h' & ->).
  - eapply Forall_impl; [exact F|].
    intros t' (c' & g' & R'). exists c', g'.
    apply row_in_grows; [repeat constructor|assumption].
  - eexists _, _. reflexivity.
Qed.

(** One record without any text makes the whole comprehension raise. *)
Lemma mapM_tweet_to_row_raise (items : list val) (h h1 : heap) (tweet : val) (e0 : exn) :
  In tweet items -> text_in h tweet = Raise e0 -> grows h h1 ->
  exists e h', mapM tweet_to_row items h1 = (Raise e, h').
Proof.
  intros I T. revert h1. induction items as [|t items IH]; intros h1 G; [contradiction|].
  simpl. unfold bind at 1.
  destruct (tweet_to_row t h1) as [[row|e] h2] eqn:R; [|eauto].
  destruct I as [->|I].
  - destruct G as (ext & -> & F).
    destruct (tweet_to_row_raise (h ++ ext) tweet) as (e & h' & R').
    { left. exists e0. rewrite text_in_grows by assumption. exact T. }
    congruence.
  - pose proof (tweet_to_row_grows _ _ _ _ R) as G2.
    destruct (IH I h2 (grows_trans _ _ _ G G2)) as (e & h' & E).
    unfold bind. rewrite E. eauto.
Qed.

Lemma widest_uniform (n : nat) (c : list val) (cells : list (list val)) :
  Forall (fun r => length r = n) (c :: cells) -> widest (c :: cells) = n.
Proof.
  revert c. induction cells as [|c' cells IH]; intros c F.
  - apply Forall_cons in F. destruct F as [<- _]. simpl. lia.
  - apply Forall_cons in F. destruct F as [L F].
    change (widest (c :: c' :: cells)) with (Nat.max (length c) (widest (c' :: cells))).
    rewrite (IH _ F). lia.
Qed.

Lemma map_pad_uniform (n : nat) (cells : list (list val)) :
  Forall (fun r => length r = n) cells -> map (pad n) cells = cells.
Proof.
  induction 1 as [|c cells L _ IH]; simpl; [reflexivity|].
  rewrite IH. unfold pad. rewrite L, Nat.sub_diag. simpl.
  rewrite app_nil_r. reflexivity.
Qed.

(** A frame from row lists that all are as wide as the header. *)
Lemma DataFrame_new_rows (h : heap) (rows : list val) (cells : list (list val))
    (labels : list string) :
  Forall2 (fun r c => list_items_in h r = Ok c) rows cells ->
  Forall (fun c => length c = length labels) cells ->
  DataFrame_new rows labels h
  = (Ok {| df_columns := labels;
           df_data := map (zip_with convert (column_dtypes (length labels) cells))
                          cells |}, h).
Proof.
  intros L W. unfold DataFrame_new. unfold bind. unfold list_items.
  rewrite (mapM_read list_items_in).
  assert (R : rmap (list_items_in h) rows = Ok cells).
  { induction L as [|r c rows cells E _ IH]; simpl; [reflexivity|].
    apply Forall_cons in W. destruct W as [_ W].
    rewrite E; simpl. rewrite (IH W). reflexivity. }
  rewrite R. destruct cells as [|c cells]; [reflexivity|].
  rewrite (widest_uniform _ _ _ W), Nat.eqb_refl.
  rewrite (map_pad_uniform _ _ W). reflexivity.
Qed.

Lemma convert_shows (float : bool) (v : val) : shows v (convert float v).
Proof.
  unfold shows, convert, to_float. destruct float; [|auto].
  destruct v; eauto.
Qed.

Lemma zip_with_convert_shows (dtypes : list bool) (r : list val) :
  length dtypes = length r -> Forall2 shows r (zip_with convert dtypes r).
Proof.
  revert r. induction dtypes as [|b dtypes IH]; intros [|v r]; simpl;
    try discriminate; [constructor|].
  intros [= L]. constructor; [apply convert_shows|apply IH; exact L].
Qed.

Lemma column_dtypes_length (width : nat) (cells : list (list val)) :
  length (column_dtypes width cells) = width.
Proof. unfold column_dtypes. rewrite length_map, length_seq. reflexivity. Qed.

(** Every row of the frame shows, cell by cell, the row it was built
    from. *)
Lemma frame_rows_show (width : nat) (dtypes : list bool) (cells : list (list val)) :
  length dtypes = width ->
  Forall (fun c => length c = width) cells ->
  Forall2 (Forall2 shows) cells (map (zip_with convert dtypes) cells).
Proof.
  intros D. induction 1 as [|c cells L _ IH]; simpl; constructor; [|exact IH].
  apply zip_with_convert_shows. congruence.
Qed.

Lemma Forall2_shows_length (cells : list val) (row : list entry) :
  Forall2 shows cells row -> length row = length cells.
Proof. intros F. symmetry. eapply Forall2_length. exact F. Qed.

Lemma Forall2_through {A B D} (R : A -> B -> Prop) (Q : B -> D -> Prop)
    (xs : list A) (ys : list B) (zs : list D) :
  Forall2 R xs ys -> Forall2 Q ys zs ->
  Forall2 (fun x z => exists y, R x y /\ Q y z) xs zs.
Proof.
  intros F. revert zs. induction F as [|x y xs ys Rxy _ IH]; intros zs G.
  - apply Forall2_nil_inv_l in G. subst. constructor.
  - apply Forall2_cons_inv_l in G. destruct G as (z & zs' & Qyz & G & ->).
    constructor; [eauto|apply IH; exact G].
Qed.

Lemma row_of_length (h h' : heap) (tweet : val) (cells : list val) :
  row_of h h' tweet cells -> length cells = 9%nat.
Proof.
  intros (u & a & b & c & d & e & f & g & text & tl & tags & -> & _). reflexivity.
Qed.

Lemma rows_of_length (h h' : heap) (items : list val) (cells : list (list val)) :
  Forall2 (row_of h h') items cells -> Forall (fun c => length c = 9%nat) cells.
Proof.
  induction 1 as [|t c ts cs R _ IH]; [constructor|].
  constructor; [|exact IH]. apply row_of_length in R. exact R.
Qed.

End CollectorLemmas.

Section Collector.
Import Py Pandas CovidTweets Store.

Variable search : API -> string -> string -> string -> list (list val).
Variable cell_text : heap -> entry -> string.

Lemma Cursor_items_length (pages : list (list val)) (limit : Z) :
  (0 < limit)%Z ->
  length (Cursor_items pages limit)
  = Nat.min (Z.to_nat limit) (length (concat pages)).
Proof.
  intros L. unfold Cursor_items.
  destruct (Z.ltb_spec 0 limit) as [_|]; [|lia].
  apply length_take.
Qed.

Lemma scrape_tweets_inv (api : API) (query : string) (limit : Z) (h h' : heap)
    (df : DataFrame entry) :
  scrape_tweets search api query limit h = (Ok df, h') ->
  df_columns df = columns
  /\ Forall2 (fun tweet row =>
                exists cells, row_of h h' tweet cells /\ Forall2 shows cells row)
       (Cursor_items (search api query "en" "extended") limit) (df_data df).
Proof.
  unfold scrape_tweets. unfold bind at 1.
  destruct (mapM tweet_to_row _ h) as [[rows|e] h2] eqn:M; [|discriminate].
  destruct (mapM_tweet_to_row_inv _ _ _ _ M) as (cells & L & O).
  pose proof (rows_of_length _ _ _ _ O) as W.
  pose proof (DataFrame_new_rows _ _ _ columns L W) as E.
  pose proof (column_dtypes_length (length columns) cells) as D.
  remember (column_dtypes (length columns) cells) as dtypes eqn:Hd. clear Hd.
  rewrite E. intros [= <- <-].
  split; [reflexivity|].
  eapply Forall2_through; [exact O|].
  apply (frame_rows_show (length columns)); [exact D|exact W].
Qed.

(** C7: a table that [scrape_tweets] returns carries the nine column
    names, and its rows are the rows of the records the cursor yielded, one
    per record and in the cursor's order; each has exactly nine cells, which
    show, in this order, the handle, bio, location, following, followers
    and posts of the author, the retweet count, the text and the hashtag
    list of the record. *)
Theorem scrape_tweets_table (api : API) (query : string) (limit : Z) (h h' : heap)
    (df : DataFrame entry) :
  scrape_tweets search api query limit h = (Ok df, h') ->
  df_columns df
  = [ "username"; "description"; "location"; "following"; "followers";
      "totaltweets"; "retweetcount"; "text"; "hashtags" ]
  /\ Forall2 (fun tweet row =>
                exists cells, row_of h h' tweet cells /\ Forall2 shows cells row)
       (Cursor_items (search api query "en" "extended") limit) (df_data df)
  /\ Forall (fun row => length row = 9%nat) (df_data df).
Proof.
  intros S. destruct (scrape_tweets_inv _ _ _ _ _ _ S) as [C O].
  split; [exact C|]. split; [exact O|].
  clear S C. induction O as [|t r ts rs (cells & R & W) _ IH]; constructor;
    [|exact IH].
  rewrite (Forall2_shows_length _ _ W). eapply row_of_length. exact R.
Qed.

(** C3: for a positive limit the cursor yields, and the table holds, at
    most [limit] records; when the source has fewer than [limit], and every
    one of them can be read, the run ends without an exception with exactly
    as many rows as the source has records. *)
Theorem scrape_tweets_limit (api : API) (query : string) (limit : Z) (h : heap) :
  (0 < limit)%Z ->
  let source := concat (search api query "en" "extended") in
  (length (Cursor_items (search api query "en" "extended") limit) <= Z.to_nat limit)%nat
  /\ (forall df h',
        scrape_tweets search api query limit h = (Ok df, h') ->
        (length (df_data df) <= Z.to_nat limit)%nat
        /\ ((length source < Z.to_nat limit)%nat ->
            length (df_data df) = length source))
  /\ (Forall (readable h) source ->
      (length source < Z.to_nat limit)%nat ->
      exists df h',
        scrape_tweets search api query limit h = (Ok df, h')
        /\ length (df_data df) = length source).
Proof.
  intros L source.
  pose proof (Cursor_items_length (search api query "en" "extended") limit L) as N.
  fold source in N.
  assert (A : forall df h',
             scrape_tweets search api query limit h = (Ok df, h') ->
             length (df_data df) = Nat.min (Z.to_nat limit) (length source)).
  { intros df h' S. apply scrape_tweets_inv in S. destruct S as [_ O].
    apply Forall2_length in O. congruence. }
  split; [lia|]. split.
  - intros df h' S. rewrite (A _ _ S). lia.
  - intros R Few.
    assert (E : Cursor_items (search api query "en" "extended") limit = source).
    { unfold Cursor_items. destruct (Z.ltb_spec 0 limit) as [_|]; [|lia].
      apply take_ge. fold source. lia. }
    unfold scrape_tweets. rewrite E.
    destruct (mapM_tweet_to_row_ok source h R) as (rows & h2 & M).
    destruct (mapM_tweet_to_row_inv _ _ _ _ M) as (cells & Lr & O).
    pose proof (rows_of_length _ _ _ _ O) as W.
    unfold bind at 1. rewrite M, (DataFrame_new_rows _ _ _ columns Lr W).
    eexists _, _. split; [reflexivity|]. cbn [df_data].
    rewrite length_map. apply Forall2_length in O. congruence.
Qed.

(** C4: a record with neither a retweeted status nor a text of its own is
    never normalized: [tweet_to_row] raises, [AttributeError] whenever line
    46 went through.  No handler stands between that and the top of the
    program: [scrape_tweets] raises when the cursor yields such a record, and
    [main] ends with the exception, no file written and nothing printed. *)
Theorem tweet_to_row_malformed (h : heap) (tweet : val) :
  getattr_in h tweet "retweeted_status" = Raise AttributeError ->
  getattr_in h tweet "full_text" = Raise AttributeError ->
  (exists e h', tweet_to_row tweet h = (Raise e, h'))
  /\ (forall hl h1,
        tweet_hashtags tweet h = (Ok hl, h1) ->
        tweet_to_row tweet h = (Raise AttributeError, h1))
  /\ (forall api query limit,
        In tweet (Cursor_items (search api query "en" "extended") limit) ->
        exists e h', scrape_tweets search api query limit h = (Raise e, h'))
  /\ (forall environ args w,
        w_heap w = h ->
        (forall api, create_api environ = Ok api ->
           In tweet (Cursor_items (search api (arg_query args) "en" "extended")
                                  (default 100%Z (arg_limit args)))) ->
        exists e w',
          main search cell_text environ args w = (Raise e, w')
          /\ w_files w' = w_files w /\ w_stdout w' = w_stdout w).
Proof.
  intros H1 H2.
  assert (T : text_in h tweet = Raise AttributeError).
  { rewrite (text_in_own _ _ _ H1). exact H2. }
  assert (S : forall api query limit,
             In tweet (Cursor_items (search api query "en" "extended") limit) ->
             exists e h', scrape_tweets search api query limit h = (Raise e, h')).
  { intros api query limit I. unfold scrape_tweets. unfold bind at 1.
    destruct (mapM_tweet_to_row_raise _ h h tweet _ I T (grows_refl h))
      as (e & h' & ->). eauto. }
  split; [|split; [|split]].
  - apply tweet_to_row_raise. eauto.
  - intros hl h1 H. unfold tweet_to_row. unfold bind at 1. rewrite H.
    pose proof (tweet_hashtags_grows _ _ _ _ H) as (ext & -> & F).
    unfold bind at 1. rewrite tweet_text_reads, text_in_grows, T by assumption.
    reflexivity.
  - exact S.
  - intros environ args w <- I. unfold main.
    destruct (create_api environ) as [api|e] eqn:A.
    + destruct (S api _ _ (I api eq_refl)) as (e & h' & ->).
      eexists _, _. split; [reflexivity|]. auto.
    + eexists _, _. split; [reflexivity|]. auto.
Qed.

(** C10: when the cursor yields nothing, [scrape_tweets] returns the table
    with the nine column names and no rows, [save_to_csv] writes the header
    line alone, nine names with nothing before the first, and [main] ends
    normally. *)
Theorem scrape_tweets_empty (api : API) (query : string) (limit : Z) (h : heap) :
  Cursor_items (search api query "en" "extended") limit = [] ->
  let empty : DataFrame entry := {| df_columns := columns; df_data := [] |} in
  let header :=
    ("username,description,location,following,followers,totaltweets,retweetcount,text,hashtags"
     ++ newline)%string in
  scrape_tweets search api query limit h = (Ok empty, h)
  /\ (forall filename files,
        save_to_csv cell_text h empty filename files = <[filename := header]> files)
  /\ (forall environ output w,
        create_api environ = Ok api -> w_heap w = h ->
        main search cell_text environ
             {| arg_query := query; arg_limit := Some limit; arg_output := Some output |} w
        = (Ok tt, {| w_heap := h;
                     w_files := <[output := header]> (w_files w);
                     w_stdout := w_stdout w ++ ["Scraping has completed!"] |})).
Proof.
  intros E empty header.
  assert (S : scrape_tweets search api query limit h = (Ok empty, h)).
  { unfold scrape_tweets. rewrite E. reflexivity. }
  split; [exact S|]. split.
  - intros filename files. reflexivity.
  - intros environ output w A <-. unfold main. rewrite A. simpl.
    rewrite S. reflexivity.
Qed.

End Collector.

Section CollectorWitnesses.
Import Py Pandas CovidTweets Store.

Lemma scrape_tweets_table_witness :
  exists df h',
    scrape_tweets Sample2.mixed_search Sample.api "#covid" 2 Sample2.mixed_store
    = (Ok df, h')
    /\ df_columns df
       = [ "username"; "description"; "location"; "following"; "followers";
           "totaltweets"; "retweetcount"; "text"; "hashtags" ]
    /\ Forall2 (fun tweet row =>
                  exists cells,
                    row_of Sample2.mixed_store h' tweet cells
                    /\ Forall2 shows cells row)
         (Cursor_items (Sample2.mixed_search Sample.api "#covid" "en" "extended") 2)
         (df_data df)
    /\ Forall (fun row => length row = 9%nat) (df_data df).
Proof.
  eexists _, _. split; [reflexivity|].
  apply (scrape_tweets_table Sample2.mixed_search Sample.api "#covid" 2
           Sample2.mixed_store).
  reflexivity.
Defined.

Lemma scrape_tweets_limit_witness :
  exists df h',
    scrape_tweets Sample.search Sample.api "#covid" 5 Sample.store = (Ok df, h')
    /\ length (df_data df) = 3%nat.
Proof.
  destruct (scrape_tweets_limit Sample.search Sample.api "#covid" 5 Sample.store)
    as (_ & _ & H); [lia|].
  apply H.
  - repeat constructor; eexists _, _; reflexivity.
  - simpl. lia.
Defined.

Lemma tweet_to_row_malformed_witness :
  exists e w',
    main Sample.broken_search Sample.cell_text Sample.environ
         {| arg_query := "#covid"; arg_limit := None; arg_output := None |}
         Sample.world0
    = (Raise e, w')
    /\ w_files w' = w_files Sample.world0
    /\ w_stdout w' = w_stdout Sample.world0.
Proof.
  refine (proj2 (proj2 (proj2
            (tweet_to_row_malformed Sample.broken_search Sample.cell_text
               Sample.store (VRef 8) _ _))) _ _ _ _ _).
  - reflexivity.
  - reflexivity.
  - reflexivity.
  - intros api _. simpl. right. left. reflexivity.
Defined.

Lemma scrape_tweets_empty_witness :
  main Sample.empty_search Sample.cell_text Sample.environ
       {| arg_query := "#covid"; arg_limit := Some 100%Z;
          arg_output := Some "scraped_tweets.csv" |}
       Sample.world0
  = (Ok tt,
     {| w_heap := Sample.store;
        w_files :=
          {[ "scraped_tweets.csv" :=
             ("username,description,location,following,followers,totaltweets,retweetcount,text,hashtags"
              ++ newline)%string ]};
        w_stdout := ["Scraping has completed!"] |}).
Proof.
  refine (proj2 (proj2
            (scrape_tweets_empty Sample.empty_search Sample.cell_text
               Sample.api "#covid" 100 Sample.store _)) _ _ _ _ _).
  - reflexivity.
  - reflexivity.
  - reflexivity.
Defined.

End CollectorWitnesses.

(** ** The credential resolver *)

Section Credentials.
Import Py CovidTweets Store.

Lemma truthy_nonempty (s : string) : s <> "" -> truthy (Some s) = true.
Proof.
  intros N. simpl. apply negb_true_iff, String.eqb_neq. exact N.
Qed.

Lemma truthy_missing (v : option string) :
  v = None \/ v = Some "" -> truthy v = false.
Proof. intros [->| ->]; reflexivity. Qed.

(** C2, as the code has it: with the four variables set to non-empty
    strings, the consumer key and secret ASCII, [create_api] returns a
    session that holds the consumer key and secret encoded (the same
    characters, as bytes) and the access token and secret as given; with one
    of the four unset or empty it raises [RuntimeError]; with all four
    non-empty and a consumer key or secret that is not ASCII the handler
    raises [UnicodeEncodeError]. *)
Theorem create_api_credentials (environ : gmap string string) :
  (forall key secret token token_secret,
      environ !! "TWITTER_CONSUMER_KEY" = Some key ->
      environ !! "TWITTER_CONSUMER_SECRET" = Some secret ->
      environ !! "TWITTER_ACCESS_TOKEN" = Some token ->
      environ !! "TWITTER_ACCESS_TOKEN_SECRET" = Some token_secret ->
      key <> "" -> secret <> "" -> token <> "" -> token_secret <> "" ->
      (is_ascii key = true -> is_ascii secret = true ->
       create_api environ
       = Ok {| auth := {| consumer_key := Some (Bytes key);
                          consumer_secret := Some (Bytes secret);
                          access_token := Some (Str token);
                          access_token_secret := Some (Str token_secret) |};
               wait_on_rate_limit := true |})
      /\ (is_ascii key = false \/ is_ascii secret = false ->
          create_api environ = Raise UnicodeEncodeError))
  /\ ((exists name,
         In name credential_names
         /\ (environ !! name = None \/ environ !! name = Some "")) ->
      create_api environ = Raise RuntimeError).
Proof.
  split.
  - intros key secret token token_secret K S T TS NK NS NT NTS.
    unfold create_api, getenv, all. rewrite K, S, T, TS.
    cbn [forallb]. rewrite !truthy_nonempty by assumption.
    cbn [andb negb]. unfold OAuthHandler_new, encode_if_str. split.
    + intros -> ->. reflexivity.
    + intros [A|A].
      * rewrite A. reflexivity.
      * rewrite A. destruct (is_ascii key); reflexivity.
  - intros (name & I & M). apply truthy_missing in M.
    unfold create_api, getenv, all. cbn [forallb].
    unfold credential_names in I. cbn [In] in I.
    destruct I as [<-|[<-|[<-|[<-|[]]]]]; rewrite M;
      rewrite ?andb_false_r; reflexivity.
Qed.

Lemma create_api_credentials_witness :
  create_api Sample.environ = Ok Sample.api
  /\ create_api Sample2.accented_environ = Raise UnicodeEncodeError
  /\ create_api (delete "TWITTER_ACCESS_TOKEN" Sample.environ) = Raise RuntimeError
  /\ create_api (<["TWITTER_CONSUMER_SECRET" := ""]> Sample.environ)
     = Raise RuntimeError.
Proof.
  split; [|split; [|split]].
  - apply (proj1 (create_api_credentials Sample.environ)
             "ck" "cs" "at" "as"); (reflexivity || discriminate).
  - apply (proj1 (create_api_credentials Sample2.accented_environ)
             Sample2.accented "cs" "at" "as");
      try reflexivity; try discriminate.
    left. reflexivity.
  - apply (proj2 (create_api_credentials _)).
    exists "TWITTER_ACCESS_TOKEN". split; [simpl; tauto|]. left. reflexivity.
  - apply (proj2 (create_api_credentials _)).
    exists "TWITTER_CONSUMER_SECRET". split; [simpl; tauto|]. right. reflexivity.
Defined.

(** Four values that are all present and non-empty do not make
    [create_api] succeed: with the consumer key of [Sample2.accented_environ],
    which is not ASCII, it raises. *)
Lemma create_api_credentials_counterexample :
  ~ (forall environ : gmap string string,
       (forall name, In name credential_names ->
          exists s, environ !! name = Some s /\ s <> "") ->
       exists api, create_api environ = Ok api).
Proof.
  intros H. destruct (H Sample2.accented_environ) as (api & A).
  - intros name I. unfold credential_names in I. cbn [In] in I.
    destruct I as [<-|[<-|[<-|[<-|[]]]]];
      eexists; (split; [reflexivity|discriminate]).
  - discriminate.
Qed.

(** The session is always built with the rate-limit wait switched on. *)
Lemma create_api_waits (environ : gmap string string) (api : API) :
  create_api environ = Ok api -> wait_on_rate_limit api = true.
Proof.
  unfold create_api. destruct (negb _); [discriminate|].
  destruct (OAuthHandler_new _ _); [|discriminate].
  intros [= <-]. reflexivity.
Qed.

End Credentials.

(** ** The CSV loader of the sentiment script *)

Section Loader.
Import Py Pandas TransformerSentiment.

Context {cell : Type}.

Lemma has_column_In (df : DataFrame cell) (label : string) :
  has_column df label = true <-> In label (df_columns df).
Proof.
  unfold has_column. rewrite existsb_exists. split.
  - intros (l & I & E). apply String.eqb_eq in E. subst. exact I.
  - intros I. exists label. split; [exact I|apply String.eqb_refl].
Qed.

Lemma positions_nil (label : string) (labels : list string) (k : nat) :
  positions label labels k = [] -> ~ In label labels.
Proof.
  revert k. induction labels as [|l labels IH]; intros k; simpl; [tauto|].
  destruct (String.eqb_spec l label) as [->|N]; [discriminate|].
  intros P [E|I]; [congruence|]. exact (IH _ P I).
Qed.

Lemma positions_absent (label : string) (labels : list string) (k : nat) :
  ~ In label labels -> positions label labels k = [].
Proof.
  revert k. induction labels as [|l labels IH]; intros k N; simpl; [reflexivity|].
  destruct (String.eqb_spec l label) as [->|_]; [exfalso; apply N; left; reflexivity|].
  apply IH. intros I. apply N. right. exact I.
Qed.

(** With distinct labels, the one position of a label that is there. *)
Lemma positions_unique (label : string) (labels : list string) (i k : nat) :
  NoDup labels -> labels !! i = Some label ->
  positions label labels k = [(k + i)%nat].
Proof.
  intros D. revert i k. induction D as [|l labels N _ IH]; intros i k; [discriminate|].
  destruct i as [|i]; simpl.
  - intros [= ->]. rewrite String.eqb_refl.
    rewrite positions_absent; [f_equal; lia|].
    intros I. apply N, list_elem_of_In. exact I.
  - intros L. destruct (String.eqb_spec l label) as [->|_].
    + exfalso. apply N. eapply list_elem_of_lookup_2. exact L.
    + rewrite (IH _ _ L). f_equal. lia.
Qed.

Lemma column_at_rows (i width : nat) (rows : list (list cell)) :
  (i < width)%nat -> Forall (fun r => length r = width) rows ->
  Forall2 (fun r t => r !! i = Some t) rows (column_at i rows).
Proof.
  intros I. induction 1 as [|r rows L _ IH]; [constructor|].
  unfold column_at. simpl.
  destruct (lookup_lt_is_Some_2 r i) as (t & E); [lia|].
  rewrite E. simpl. constructor; assumption.
Qed.

(** C9: once pandas has parsed the file, [load_tweets] raises
    [RuntimeError] exactly when no column is labelled [text]; when the column
    is there (labels as [read_csv] makes them, distinct) it returns the cells
    of that column, one per row and in the rows' order, whatever the other
    columns are. *)
Theorem load_tweets_text_column (read_csv : string -> result (DataFrame cell))
    (filename : string) (df : DataFrame cell) :
  read_csv filename = Ok df ->
  (load_tweets cell read_csv filename = Raise RuntimeError
   <-> ~ In "text" (df_columns df))
  /\ (NoDup (df_columns df) ->
      Forall (fun r => length r = length (df_columns df)) (df_data df) ->
      forall i, df_columns df !! i = Some "text" ->
        exists texts,
          load_tweets cell read_csv filename = Ok texts
          /\ Forall2 (fun r t => r !! i = Some t) (df_data df) texts).
Proof.
  intros R. unfold load_tweets. rewrite R. split; [split|].
  - destruct (has_column df "text") eqn:H; simpl.
    + unfold df_getitem.
      destruct (positions "text" (df_columns df) 0) as [|i [|j more]] eqn:P.
      * intros _. exact (positions_nil _ _ _ P).
      * discriminate.
      * discriminate.
    + intros _ I. apply has_column_In in I. congruence.
  - intros N. destruct (has_column df "text") eqn:H; simpl; [|reflexivity].
    apply has_column_In in H. contradiction.
  - intros D W i L.
    assert (I : In "text" (df_columns df)).
    { apply list_elem_of_In. eapply list_elem_of_lookup_2. exact L. }
    apply has_column_In in I. rewrite I. simpl.
    unfold df_getitem. rewrite (positions_unique _ _ i 0 D L). simpl.
    eexists. split; [reflexivity|].
    eapply column_at_rows; [|exact W]. eapply lookup_lt_Some. exact L.
Qed.

End Loader.

Section LoaderWitness.
Import Py Pandas TransformerSentiment.

Lemma load_tweets_text_column_witness :
  exists texts,
    load_tweets string Sample.read_csv "tweets.csv" = Ok texts
    /\ Forall2 (fun r t => r !! 1%nat = Some t) (df_data Sample.tweets_csv) texts.
Proof.
  refine (proj2 (load_tweets_text_column Sample.read_csv "tweets.csv"
                   Sample.tweets_csv _) _ _ 1%nat _).
  - reflexivity.
  - apply (bool_decide_unpack _). vm_compute. exact I.
  - repeat constructor.
  - reflexivity.
Defined.

End LoaderWitness.

(** * Further properties of the two scripts *)

(** ** The normalizer's failures and the objects it creates *)

Section NormalizerEdges.
Import Py CovidTweets Store.

(** Line 46 as reads of the store before and after the default list is
    built. *)
Lemma tweet_hashtags_eq (h : heap) (tweet : val) :
  tweet_hashtags tweet h
  = match getattr_in h tweet "entities" with
    | Raise e => (Raise e, h)
    | Ok entities =>
        match get_method_in h entities with
        | Raise e => (Raise e, h)
        | Ok NotCallable => (Raise TypeError, h ++ [OList []])
        | Ok (DictGet d) =>
            match iter_in (h ++ [OList []])
                          (default (VRef (length h)) (d !! "hashtags")) with
            | Raise e => (Raise e, h ++ [OList []])
            | Ok items =>
                match rmap (fun x => getitem_in (h ++ [OList []]) x "text") items with
                | Raise e => (Raise e, h ++ [OList []])
                | Ok tags => (Ok (VRef (length h + 1)), h ++ [OList []; OList tags])
                end
            end
        end
    end.
Proof.
  unfold tweet_hashtags.
  unfold bind at 1, getattr at 1, read at 1.
  destruct (getattr_in h tweet "entities") as [ent|]; [|reflexivity].
  unfold bind at 1, get_method at 1, read at 1.
  destruct (get_method_in h ent) as [[d|]|]; try reflexivity.
  unfold bind at 1, new_list at 1. unfold bind at 1. simpl call_get. unfold ret at 1.
  unfold bind at 1, iter at 1, read at 1.
  destruct (iter_in _ _) as [items|]; [|reflexivity].
  unfold bind at 1. unfold getitem.
  rewrite (mapM_read (fun hp x => getitem_in hp x "text")).
  destruct (rmap _ items) as [tags|]; [|reflexivity].
  unfold new_list. rewrite last_length, <- app_assoc. simpl.
  repeat f_equal. lia.
Qed.

Lemma get_method_in_raise (h : heap) (v : val) (e : exn) :
  get_method_in h v = Raise e -> e = AttributeError.
Proof.
  unfold get_method_in.
  destruct (deref h v) as [[| |attrs]|]; try congruence.
  destruct (attrs !! "get"); congruence.
Qed.

Lemma iter_in_raise (h : heap) (v : val) (e : exn) :
  iter_in h v = Raise e -> e = TypeError.
Proof.
  unfold iter_in. destruct v; try congruence.
  destruct (deref h (VRef l)) as [[| |]|]; congruence.
Qed.

Lemma getitem_in_raise (h : heap) (v : val) (key : string) (e : exn) :
  getitem_in h v key = Raise e -> e = KeyError \/ e = TypeError.
Proof.
  unfold getitem_in.
  destruct (deref h v) as [[|d|]|]; try (intros [= <-]; auto).
  destruct (d !! key); [discriminate|]. intros [= <-]. auto.
Qed.

Lemma rmap_getitem_raise (h : heap) (items : list val) (e : exn) :
  rmap (fun x => getitem_in h x "text") items = Raise e ->
  e = KeyError \/ e = TypeError.
Proof.
  induction items as [|x items IH]; simpl; [discriminate|].
  destruct (getitem_in h x "text") as [t|e0] eqn:E; simpl.
  - destruct (rmap _ items) as [ts|e1]; simpl; [discriminate|].
    intros [= <-]. apply IH. reflexivity.
  - intros [= <-]. eapply getitem_in_raise. exact E.
Qed.

(** The subscripts stop at the first annotation that has no text. *)
Lemma rmap_stops {A B} (f : A -> result B) (good rest : list A) (bad : A) (e : exn) :
  Forall (fun a => exists b, f a = Ok b) good -> f bad = Raise e ->
  rmap f (good ++ bad :: rest) = Raise e.
Proof.
  intros G B0. induction G as [|a good (b & E) _ IH]; simpl.
  - rewrite B0. reflexivity.
  - rewrite E, IH. reflexivity.
Qed.

Lemma tweet_hashtags_shape (h h1 : heap) (tweet hl : val) :
  tweet_hashtags tweet h = (Ok hl, h1) ->
  exists tags, hl = VRef (length h + 1) /\ h1 = h ++ [OList []; OList tags].
Proof.
  rewrite tweet_hashtags_eq.
  destruct (getattr_in h tweet "entities") as [ent|]; [|discriminate].
  destruct (get_method_in h ent) as [[d|]|]; try discriminate.
  destruct (iter_in _ _) as [items|]; [|discriminate].
  destruct (rmap _ items) as [tags|]; [|discriminate].
  intros [= <- <-]. eauto.
Qed.

Lemma tweet_hashtags_raises (h h1 : heap) (tweet : val) (e : exn) :
  tweet_hashtags tweet h = (Raise e, h1) ->
  (e = AttributeError /\ h1 = h)
  \/ ((e = KeyError \/ e = TypeError) /\ h1 = h ++ [OList []]).
Proof.
  rewrite tweet_hashtags_eq.
  destruct (getattr_in h tweet "entities") as [ent|e0] eqn:E.
  2:{ intros [= <- <-]. left. split; [eapply getattr_in_raise; eassumption|reflexivity]. }
  destruct (get_method_in h ent) as [[d|]|e0] eqn:G.
  3:{ intros [= <- <-]. left. split; [eapply get_method_in_raise; eassumption|reflexivity]. }
  2:{ intros [= <- <-]. right. auto. }
  destruct (iter_in _ _) as [items|e0] eqn:I.
  2:{ intros [= <- <-]. right. split; [|reflexivity].
      right. eapply iter_in_raise. eassumption. }
  destruct (rmap _ items) as [tags|e0] eqn:R; [discriminate|].
  intros [= <- <-]. right. split; [|reflexivity].
  eapply rmap_getitem_raise. eassumption.
Qed.

(** The row, once line 46 went through and the text and the profile can
    be read. *)
Lemma tweet_to_row_with_text (h h1 : heap) (tweet hl body : val) (profile : list val) :
  tweet_hashtags tweet h = (Ok hl, h1) ->
  profile_in h tweet = Ok profile ->
  text_in h tweet = Ok body ->
  tweet_to_row tweet h
  = (Ok (VRef (length h1)), h1 ++ [OList (profile ++ [body; hl])]).
Proof.
  intros H P T.
  pose proof (tweet_hashtags_grows _ _ _ _ H) as (ext & -> & F).
  unfold tweet_to_row. unfold bind at 1. rewrite H.
  unfold bind at 1. rewrite tweet_text_reads, text_in_grows, T by assumption.
  unfold bind at 1. rewrite tweet_profile_reads, profile_in_grows, P by assumption.
  reflexivity.
Qed.

(** X1: a retweeted status that has no full text of its own does not stop
    the normalization: the [except] branch catches that [AttributeError]
    too, and the row carries the retweet's own text. *)
Theorem tweet_to_row_retweet_without_text (h h1 : heap) (tweet hl original body : val)
    (profile : list val) :
  tweet_hashtags tweet h = (Ok hl, h1) ->
  tweet_profile tweet h = (Ok profile, h) ->
  getattr_in h tweet "retweeted_status" = Ok original ->
  getattr_in h original "full_text" = Raise AttributeError ->
  getattr_in h tweet "full_text" = Ok body ->
  tweet_to_row tweet h
  = (Ok (VRef (length h1)), h1 ++ [OList (profile ++ [body; hl])]).
Proof.
  intros H P R O T. apply tweet_to_row_with_text; [exact H| |].
  - unfold profile_in. rewrite P. reflexivity.
  - rewrite (text_in_fallback _ _ _ _ R O). exact T.
Qed.

Lemma tweet_to_row_retweet_without_text_witness :
  tweet_to_row (VRef 8) Sample2.store
  = (Ok (VRef 13),
     (Sample2.store ++ [OList []; OList []])
     ++ [OList ([VStr "alice"; VStr "nurse"; VNone; VInt 10; VInt 20; VInt 30; VInt 2]
                ++ [VStr "own"; VRef 12])]).
Proof.
  refine (tweet_to_row_retweet_without_text Sample2.store
            (Sample2.store ++ [OList []; OList []]) (VRef 8) (VRef 12) (VRef 7)
            (VStr "own")
            [VStr "alice"; VStr "nurse"; VNone; VInt 10; VInt 20; VInt 30; VInt 2]
            _ _ _ _ _); reflexivity.
Defined.

(** X2: an annotation dict without a [text] entry makes [tweet_to_row]
    raise [KeyError], whatever the annotations after it, the text and the
    profile are; only the unused default list has been created. *)
Theorem tweet_to_row_annotation_without_text (h : heap) (tweet entities annotations bad : val)
    (d e : gmap string val) (good rest : list val) :
  getattr_in h tweet "entities" = Ok entities ->
  deref h entities = Some (ODict d) ->
  d !! "hashtags" = Some annotations ->
  deref h annotations = Some (OList (good ++ bad :: rest)) ->
  Forall (fun item => exists x, getitem_in h item "text" = Ok x) good ->
  deref h bad = Some (ODict e) ->
  e !! "text" = None ->
  tweet_to_row tweet h = (Raise KeyError, h ++ [OList []]).
Proof.
  intros E D L A G B T.
  assert (H : tweet_hashtags tweet h = (Raise KeyError, h ++ [OList []])).
  { rewrite tweet_hashtags_eq, E. unfold get_method_in. rewrite D, L. simpl default.
    assert (I : iter_in (h ++ [OList []]) annotations = Ok (good ++ bad :: rest)).
    { apply iter_in_app. unfold iter_in.
      destruct annotations; simpl in A; try discriminate. simpl. rewrite A. reflexivity. }
    rewrite I.
    rewrite (rmap_stops _ good rest bad KeyError); [reflexivity| |].
    - eapply Forall_impl; [exact G|]. intros item (x & X). exists x.
      apply getitem_in_app. exact X.
    - unfold getitem_in. rewrite (deref_app _ _ _ _ B), T. reflexivity. }
  unfold tweet_to_row, bind. rewrite H. reflexivity.
Qed.

Lemma tweet_to_row_annotation_without_text_witness :
  tweet_to_row (VRef 9) Sample2.store = (Raise KeyError, Sample2.store ++ [OList []]).
Proof.
  refine (tweet_to_row_annotation_without_text Sample2.store (VRef 9) (VRef 4) (VRef 3)
            (VRef 2) (list_to_map [("hashtags", VRef 3)])
            (list_to_map [("indices", VNone)]) [VRef 1] [] _ _ _ _ _ _ _);
    try reflexivity.
  repeat constructor. exists (VStr "covid"). reflexivity.
Defined.

(** X3: the default of [get] covers a missing [hashtags] entry only: an
    entry that is there and is [None] or a number makes [tweet_to_row] raise
    [TypeError]. *)
Theorem tweet_to_row_hashtags_not_iterable (h : heap) (tweet entities annotations : val)
    (d : gmap string val) :
  getattr_in h tweet "entities" = Ok entities ->
  deref h entities = Some (ODict d) ->
  d !! "hashtags" = Some annotations ->
  annotations = VNone \/ (exists z, annotations = VInt z) ->
  tweet_to_row tweet h = (Raise TypeError, h ++ [OList []]).
Proof.
  intros E D L A.
  assert (H : tweet_hashtags tweet h = (Raise TypeError, h ++ [OList []])).
  { rewrite tweet_hashtags_eq, E. unfold get_method_in. rewrite D, L. simpl default.
    destruct A as [->|(z & ->)]; reflexivity. }
  unfold tweet_to_row, bind. rewrite H. reflexivity.
Qed.

Lemma tweet_to_row_hashtags_not_iterable_witness :
  tweet_to_row (VRef 10) Sample2.store = (Raise TypeError, Sample2.store ++ [OList []]).
Proof.
  refine (tweet_to_row_hashtags_not_iterable Sample2.store (VRef 10) (VRef 5) VNone
            (list_to_map [("hashtags", VNone)]) _ _ _ _); try reflexivity.
  left. reflexivity.
Defined.

(** X4: [tweet_to_row] raises nothing but [AttributeError], [KeyError]
    and [TypeError], and a failed run leaves no row behind: the store is as
    it was, or has the default list of line 46, or that and the list of
    hashtag texts. *)
Theorem tweet_to_row_failure (h h' : heap) (tweet : val) (e : exn) :
  tweet_to_row tweet h = (Raise e, h') ->
  (e = AttributeError \/ e = KeyError \/ e = TypeError)
  /\ (h' = h \/ h' = h ++ [OList []]
      \/ exists tags, h' = h ++ [OList []; OList tags]).
Proof.
  unfold tweet_to_row. unfold bind at 1.
  destruct (tweet_hashtags tweet h) as [[hl|e0] h1] eqn:H.
  - destruct (tweet_hashtags_shape _ _ _ _ H) as (tags & -> & ->).
    assert (F : Forall is_list [OList []; OList tags]) by (repeat constructor).
    unfold bind at 1. rewrite tweet_text_reads, text_in_grows by assumption.
    destruct (text_in h tweet) as [text|e1] eqn:T.
    + unfold bind at 1. rewrite tweet_profile_reads, profile_in_grows by assumption.
      destruct (profile_in h tweet) as [profile|e2] eqn:P; [discriminate|].
      intros [= <- <-]. split; [|eauto].
      left. unfold profile_in in P.
      destruct (tweet_profile tweet h) as [r hp] eqn:R. simpl in P. subst r.
      revert R. unfold tweet_profile, bind, getattr, read, ret.
      repeat match goal with
             | |- context [getattr_in h ?v ?n] =>
                 let X := fresh "X" in
                 destruct (getattr_in h v n) eqn:X;
                 [|intros [= <- _]; eapply getattr_in_raise; exact X]
             end.
      discriminate.
    + intros [= <- <-]. split; [|eauto].
      left. revert T. unfold text_in, tweet_text, try_except, bind, getattr, read.
      destruct (getattr_in h tweet "retweeted_status") as [rs|e3] eqn:R; simpl.
      * destruct (getattr_in h rs "full_text") as [s|e4] eqn:O; simpl; [discriminate|].
        pose proof (getattr_in_raise _ _ _ _ O) as ->. simpl.
        intros X. eapply getattr_in_raise. exact X.
      * pose proof (getattr_in_raise _ _ _ _ R) as ->. simpl.
        intros X. eapply getattr_in_raise. exact X.
  - intros [= <- <-].
    destruct (tweet_hashtags_raises _ _ _ _ H) as [[-> ->]|[[->| ->] ->]]; auto.
Qed.

Lemma tweet_to_row_failure_witness :
  (AttributeError = AttributeError \/ AttributeError = KeyError
   \/ AttributeError = TypeError)
  /\ (snd (tweet_to_row (VRef 8) Sample.store) = Sample.store
      \/ snd (tweet_to_row (VRef 8) Sample.store) = Sample.store ++ [OList []]
      \/ exists tags,
           snd (tweet_to_row (VRef 8) Sample.store)
           = Sample.store ++ [OList []; OList tags]).
Proof.
  apply (tweet_to_row_failure Sample.store _ (VRef 8) AttributeError).
  reflexivity.
Defined.

(** X5: a normalization that returns has added exactly three objects to
    the store: the default list, the list of hashtag texts and the row.  The
    row has eight cells and then a reference to the new list of texts, never
    to a list the status already had. *)
Theorem tweet_to_row_fresh (h h' : heap) (tweet row : val) :
  tweet_to_row tweet h = (Ok row, h') ->
  exists cells tags,
    length cells = 8%nat
    /\ row = VRef (length h + 2)
    /\ h' = h ++ [OList []; OList tags; OList (cells ++ [VRef (length h + 1)])].
Proof.
  intros R. apply tweet_to_row_inv in R.
  destruct R as (hl & h1 & text & profile & H & T & P & -> & ->).
  destruct (tweet_hashtags_shape _ _ _ _ H) as (tags & -> & ->).
  exists (profile ++ [text]), tags. split; [|split].
  - rewrite length_app, (profile_in_length _ _ _ P). reflexivity.
  - rewrite length_app. reflexivity.
  - rewrite <- !app_assoc. reflexivity.
Qed.

Lemma tweet_to_row_fresh_witness :
  exists cells tags,
    length cells = 8%nat
    /\ VRef 13 = VRef (length Sample.store + 2)
    /\ snd (tweet_to_row (VRef 7) Sample.store)
       = Sample.store
         ++ [OList []; OList tags; OList (cells ++ [VRef (length Sample.store + 1)])].
Proof.
  apply (tweet_to_row_fresh Sample.store _ (VRef 7) (VRef 13)). reflexivity.
Defined.

End NormalizerEdges.

(** ** The store stays closed *)

Section ClosedInvariant.
Import Py Pandas CovidTweets Store.

Lemma val_ok_mono (n m : nat) (v : val) : (n <= m)%nat -> val_ok n v -> val_ok m v.
Proof. destruct v; simpl; auto. lia. Qed.

Lemma obj_ok_mono (n m : nat) (o : obj) : (n <= m)%nat -> obj_ok n o -> obj_ok m o.
Proof.
  intros L. destruct o; simpl; intros H.
  - eapply Forall_impl; [exact H|]. intros v. apply val_ok_mono. exact L.
  - eapply map_Forall_impl; [exact H|]. intros k v. apply val_ok_mono. exact L.
  - eapply map_Forall_impl; [exact H|]. intros k v. apply val_ok_mono. exact L.
Qed.

Lemma heap_closed_app (h ext : heap) :
  heap_closed h -> Forall (obj_ok (length h + length ext)) ext ->
  heap_closed (h ++ ext).
Proof.
  unfold heap_closed. intros C E. rewrite length_app. apply Forall_app. split.
  - eapply Forall_impl; [exact C|]. intros o. apply obj_ok_mono. lia.
  - exact E.
Qed.

Lemma heap_closed_new_list (h : heap) (items : list val) :
  heap_closed h -> Forall (val_ok (length h)) items ->
  heap_closed (h ++ [OList items]).
Proof.
  intros C V. apply heap_closed_app; [exact C|].
  constructor; [|constructor]. simpl.
  eapply Forall_impl; [exact V|]. intros v. apply val_ok_mono. lia.
Qed.

Lemma getitem_in_closed (h : heap) (v x : val) (key : string) :
  heap_closed h -> getitem_in h v key = Ok x -> val_ok (length h) x.
Proof.
  intros C. unfold getitem_in.
  destruct (deref h v) as [[|d|]|] eqn:E; try discriminate.
  destruct (d !! key) as [y|] eqn:L; [|discriminate].
  intros [= <-]. apply (closed_deref _ _ _ C E _ _ L).
Qed.

Lemma rmap_getitem_closed (h : heap) (items tags : list val) :
  heap_closed h ->
  rmap (fun x => getitem_in h x "text") items = Ok tags ->
  Forall (val_ok (length h)) tags.
Proof.
  intros C. revert tags. induction items as [|x items IH]; intros tags; simpl.
  - intros [= <-]. constructor.
  - destruct (getitem_in h x "text") as [t|] eqn:E; simpl; [|discriminate].
    destruct (rmap _ items) as [ts|]; simpl; [|discriminate].
    intros [= <-]. constructor; [|apply IH; reflexivity].
    eapply getitem_in_closed; eassumption.
Qed.

Lemma list_items_in_closed (h : heap) (v : val) (items : list val) :
  heap_closed h -> list_items_in h v = Ok items -> Forall (val_ok (length h)) items.
Proof.
  intros C. unfold list_items_in.
  destruct (deref h v) as [[its| |]|] eqn:E; try discriminate.
  intros [= <-]. apply (closed_deref _ _ _ C E).
Qed.

Lemma text_in_closed (h : heap) (tweet text : val) :
  heap_closed h -> text_in h tweet = Ok text -> val_ok (length h) text.
Proof.
  intros C. unfold text_in, tweet_text, try_except, bind, getattr, read.
  destruct (getattr_in h tweet "retweeted_status") as [rs|e] eqn:R; simpl.
  - destruct (getattr_in h rs "full_text") as [s|e] eqn:O; simpl.
    + intros [= <-]. eapply getattr_in_closed; eassumption.
    + destruct (decide (e = AttributeError)); simpl; [|discriminate].
      intros X. eapply getattr_in_closed; eassumption.
  - destruct (decide (e = AttributeError)); simpl; [|discriminate].
    intros X. eapply getattr_in_closed; eassumption.
Qed.

Lemma profile_in_closed (h : heap) (tweet : val) (profile : list val) :
  heap_closed h -> profile_in h tweet = Ok profile ->
  Forall (val_ok (length h)) profile.
Proof.
  intros C P. apply profile_in_ok in P.
  destruct P as (u & a & b & c & d & e & f & g & U & A & B & C0 & D & E & F & G & ->).
  repeat constructor; eapply getattr_in_closed; eassumption.
Qed.

Lemma tweet_hashtags_closed (h h1 : heap) (tweet : val) (r : result val) :
  heap_closed h -> tweet_hashtags tweet h = (r, h1) ->
  heap_closed h1 /\ (forall hl, r = Ok hl -> val_ok (length h1) hl).
Proof.
  intros C. rewrite tweet_hashtags_eq.
  assert (C1 : heap_closed (h ++ [OList []])).
  { apply heap_closed_new_list; [exact C|constructor]. }
  destruct (getattr_in h tweet "entities") as [ent|];
    [|intros [= <- <-]; split; [exact C|discriminate]].
  destruct (get_method_in h ent) as [[d|]|];
    try (intros [= <- <-]; split; [assumption|discriminate]).
  destruct (iter_in _ _) as [items|];
    [|intros [= <- <-]; split; [assumption|discriminate]].
  destruct (rmap _ items) as [tags|] eqn:R;
    [|intros [= <- <-]; split; [assumption|discriminate]].
  intros [= <- <-]. split.
  - change (h ++ [OList []; OList tags]) with (h ++ [OList []] ++ [OList tags]).
    rewrite app_assoc. apply heap_closed_new_list; [exact C1|].
    eapply rmap_getitem_closed; eassumption.
  - intros hl [= <-]. simpl. rewrite length_app. simpl. lia.
Qed.

Lemma tweet_to_row_closed (h h' : heap) (tweet : val) (r : result val) :
  heap_closed h -> tweet_to_row tweet h = (r, h') ->
  heap_closed h' /\ (forall row, r = Ok row -> val_ok (length h') row).
Proof.
  intros C. unfold tweet_to_row. unfold bind at 1.
  destruct (tweet_hashtags tweet h) as [[hl|e] h1] eqn:H;
    destruct (tweet_hashtags_closed _ _ _ _ C H) as [C1 V1];
    [|intros [= <- <-]; split; [exact C1|discriminate]].
  unfold bind at 1. rewrite tweet_text_reads.
  destruct (text_in h1 tweet) as [text|] eqn:T;
    [|intros [= <- <-]; split; [exact C1|discriminate]].
  unfold bind at 1. rewrite tweet_profile_reads.
  destruct (profile_in h1 tweet) as [profile|] eqn:P;
    [|intros [= <- <-]; split; [exact C1|discriminate]].
  unfold new_list. intros [= <- <-]. split.
  - apply heap_closed_new_list; [exact C1|].
    apply Forall_app. split; [eapply profile_in_closed; eassumption|].
    constructor; [eapply text_in_closed; eassumption|].
    constructor; [apply V1; reflexivity|constructor].
  - intros row [= <-]. simpl. rewrite length_app. simpl. lia.
Qed.

Lemma grows_length (h h' : heap) : grows h h' -> (length h <= length h')%nat.
Proof. intros (ext & -> & _). rewrite length_app. lia. Qed.

Lemma mapM_tweet_to_row_closed (items : list val) (h h' : heap)
    (r : result (list val)) :
  heap_closed h -> mapM tweet_to_row items h = (r, h') ->
  heap_closed h' /\ (forall rows, r = Ok rows -> Forall (val_ok (length h')) rows).
Proof.
  revert h h' r. induction items as [|t items IH]; intros h h' r C; simpl.
  - intros [= <- <-]. split; [exact C|]. intros rows [= <-]. constructor.
  - unfold bind at 1.
    destruct (tweet_to_row t h) as [[row|e] h1] eqn:R;
      destruct (tweet_to_row_closed _ _ _ _ C R) as [C1 V1];
      [|intros [= <- <-]; split; [exact C1|discriminate]].
    unfold bind at 1.
    destruct (mapM tweet_to_row items h1) as [[rows'|e] h2] eqn:M;
      destruct (IH _ _ _ C1 M) as [C2 V2]; simpl;
      [|intros [= <- <-]; split; [exact C2|discriminate]].
    intros [= <- <-]. split; [exact C2|].
    intros rows [= <-]. constructor; [|apply V2; reflexivity].
    eapply val_ok_mono; [|apply V1; reflexivity].
    apply grows_length. eapply mapM_tweet_to_row_grows. exact M.
Qed.

Lemma rmap_list_items_closed (h : heap) (rows : list val) (cells : list (list val)) :
  heap_closed h -> rmap (list_items_in h) rows = Ok cells ->
  Forall (Forall (val_ok (length h))) cells.
Proof.
  intros C. revert cells. induction rows as [|r rows IH]; intros cells; simpl.
  - intros [= <-]. constructor.
  - destruct (list_items_in h r) as [c|] eqn:E; simpl; [|discriminate].
    destruct (rmap _ rows) as [cs|]; simpl; [|discriminate].
    intros [= <-]. constructor; [|apply IH; reflexivity].
    eapply list_items_in_closed; eassumption.
Qed.

Lemma convert_ok (n : nat) (float : bool) (v : val) :
  val_ok n v -> entry_ok n (convert float v).
Proof. destruct float, v; simpl; auto. Qed.

Lemma zip_with_convert_ok (n : nat) (dtypes : list bool) (r : list val) :
  Forall (val_ok n) r -> Forall (entry_ok n) (zip_with convert dtypes r).
Proof.
  intros F. revert dtypes. induction F as [|v r V _ IH]; intros [|b dtypes]; simpl;
    try constructor; [apply convert_ok; exact V|apply IH].
Qed.

Lemma frame_entries_ok (n w : nat) (dtypes : list bool) (cells : list (list val)) :
  Forall (Forall (val_ok n)) cells ->
  Forall (Forall (entry_ok n)) (map (zip_with convert dtypes) (map (pad w) cells)).
Proof.
  intros V. rewrite List.Forall_map, List.Forall_map.
  eapply Forall_impl; [exact V|]. intros row Vr. cbv beta.
  apply zip_with_convert_ok. unfold pad. apply Forall_app. split; [exact Vr|].
  apply Forall_replicate. exact I.
Qed.

(** The constructor only reads the store, and every cell of the frame
    comes from a cell of a row or is a missing value. *)
Lemma DataFrame_new_closed (h h' : heap) (rows : list val) (labels : list string)
    (r : result (DataFrame entry)) :
  heap_closed h -> DataFrame_new rows labels h = (r, h') ->
  h' = h
  /\ (forall df, r = Ok df -> Forall (Forall (entry_ok (length h))) (df_data df)).
Proof.
  intros C. unfold DataFrame_new. unfold bind. unfold list_items.
  rewrite (mapM_read list_items_in).
  destruct (rmap (list_items_in h) rows) as [cells|] eqn:R;
    [|intros [= <- <-]; split; [reflexivity|discriminate]].
  pose proof (rmap_list_items_closed _ _ _ C R) as V.
  destruct cells as [|c cells].
  - intros [= <- <-]. split; [reflexivity|]. intros df [= <-]. constructor.
  - destruct (Nat.eqb _ _);
      [|intros [= <- <-]; split; [reflexivity|discriminate]].
    intros [= <- <-]. split; [reflexivity|]. intros df [= <-].
    exact (frame_entries_ok _ _ _ (c :: cells) V).
Qed.

End ClosedInvariant.

(** ** Whole runs of the collection script *)

Section CollectorRuns.
Import Py Pandas CovidTweets Store.

Variable search : API -> string -> string -> string -> list (list val).
Variable cell_text : heap -> entry -> string.

Lemma readable_outcomes (h : heap) (items : list val) :
  Forall (readable h) items ->
  exists outs, Forall2 (fun t out => row_in h t = Ok out) items outs.
Proof.
  induction 1 as [|t items (cells & tags & R) _ (outs & IH)].
  - exists []. constructor.
  - exists ((cells, tags) :: outs). constructor; assumption.
Qed.

(** The rows of records that can be read, each as the record alone would
    give it. *)
Lemma mapM_tweet_to_row_rows (items : list val) (outs : list (list val * list val))
    (h : heap) :
  Forall2 (fun t out => row_in h t = Ok out) items outs ->
  exists rows h',
    mapM tweet_to_row items h = (Ok rows, h')
    /\ grows h h'
    /\ Forall2 (fun r out => is_row h' r (fst out) (snd out)) rows outs.
Proof.
  revert outs h. induction items as [|t items IH]; intros outs h F.
  - apply Forall2_nil_inv_l in F. subst.
    exists [], h. split; [reflexivity|]. split; [apply grows_refl|constructor].
  - apply Forall2_cons_inv_l in F. destruct F as ([cells tags] & outs' & R & F & ->).
    set (new := [OList []; OList tags; OList (cells ++ [VRef (length h + 1)])]).
    assert (Fn : Forall is_list new) by (repeat constructor).
    destruct (IH outs' (h ++ new)) as (rows & h' & M & G & O).
    { eapply Forall2_impl; [exact F|]. intros t' out' R'.
      apply row_in_grows; assumption. }
    exists (VRef (length h + 2) :: rows), h'. split; [|split].
    + simpl. unfold bind at 1. rewrite (tweet_to_row_ok _ _ _ _ R). fold new.
      unfold bind at 1. rewrite M. reflexivity.
    + eapply grows_trans; [apply grows_app; exact Fn|exact G].
    + constructor; [|exact O]. simpl.
      eapply is_row_grows; [exact G|]. apply is_row_fresh.
Qed.

Lemma scrape_tweets_readable (api : API) (query : string) (limit : Z) (h : heap)
    (outs : list (list val * list val)) :
  Forall2 (fun t out => row_in h t = Ok out)
          (Cursor_items (search api query "en" "extended") limit) outs ->
  exists rows h',
    scrape_tweets search api query limit h
    = (Ok {| df_columns := columns; df_data := rows |}, h')
    /\ grows h h'
    /\ Forall2 (fun row out => exists l, Forall2 shows (fst out ++ [VRef l]) row
                                         /\ h' !! l = Some (OList (snd out)))
               rows outs.
Proof.
  intros F.
  destruct (mapM_tweet_to_row_rows _ _ _ F) as (refs & h' & M & G & O).
  assert (L : exists cells,
             Forall2 (fun r c => list_items_in h' r = Ok c) refs cells
             /\ Forall2 (fun c out => exists l, c = fst out ++ [VRef l]
                                                /\ h' !! l = Some (OList (snd out)))
                        cells outs).
  { clear M F. induction O as [|r out refs outs (l & D & T) _ (cells & L1 & L2)].
    - exists []. split; constructor.
    - exists ((fst out ++ [VRef l]) :: cells). split; constructor; try assumption.
      + unfold list_items_in. rewrite D. reflexivity.
      + exists l. auto. }
  destruct L as (cells & L1 & L2).
  assert (W : Forall (fun c => length c = length columns) cells).
  { clear L1 O M. revert F L2. generalize (Cursor_items (search api query "en" "extended") limit).
    intros items F. revert cells.
    induction F as [|t [cs tags] items outs R _ IH]; intros cells L2.
    - apply Forall2_nil_inv_r in L2. subst. constructor.
    - apply Forall2_cons_inv_r in L2. destruct L2 as (c & cells' & (l & -> & _) & L2 & ->).
      constructor; [|apply IH; exact L2].
      simpl fst. rewrite length_app, (row_in_length _ _ _ _ R). reflexivity. }
  pose proof (DataFrame_new_rows _ _ _ columns L1 W) as E.
  pose proof (column_dtypes_length (length columns) cells) as D.
  remember (column_dtypes (length columns) cells) as dtypes eqn:Hd. clear Hd.
  exists (map (zip_with convert dtypes) cells), h'. split; [|split].
  - unfold scrape_tweets. unfold bind at 1. rewrite M. exact E.
  - exact G.
  - pose proof (frame_rows_show (length columns) dtypes cells D W) as Sh.
    apply Forall2_flip in Sh.
    pose proof (Forall2_through _ _ _ _ _ Sh L2) as T.
    eapply Forall2_impl; [exact T|].
    intros row out (c & Sc & l & -> & Hl). exists l. split; assumption.
Qed.

(** Records that can all be read give a table that shows them one by
    one. *)
Lemma scrape_tweets_shown (api : API) (query : string) (limit : Z) (h : heap) :
  Forall (readable h) (Cursor_items (search api query "en" "extended") limit) ->
  exists rows h',
    scrape_tweets search api query limit h
    = (Ok {| df_columns := columns; df_data := rows |}, h')
    /\ Forall2 (fun tweet row =>
                  exists r hx cells tags l,
                    tweet_to_row tweet h = (Ok r, hx)
                    /\ is_row hx r cells tags
                    /\ Forall2 shows (cells ++ [VRef l]) row
                    /\ h' !! l = Some (OList tags))
               (Cursor_items (search api query "en" "extended") limit) rows
    /\ Forall (fun row => length row = 9%nat) rows.
Proof.
  intros R. destruct (readable_outcomes _ _ R) as (outs & F).
  destruct (scrape_tweets_readable api query limit h outs F) as (rows & h' & S & _ & L).
  exists rows, h'. split; [exact S|].
  clear S R. revert rows L.
  induction F as [|t [cs tags] items outs Rt _ IH]; intros rows L.
  - apply Forall2_nil_inv_r in L. subst. split; constructor.
  - apply Forall2_cons_inv_r in L. destruct L as (row & rows' & (l & Sh & T) & L & ->).
    destruct (IH _ L) as [IH1 IH2]. split; constructor; try assumption.
    + eexists _, _, cs, tags, l. split; [apply (tweet_to_row_ok _ _ _ _ Rt)|].
      split; [apply is_row_fresh|]. auto.
    + rewrite (Forall2_shows_length _ _ Sh). simpl fst.
      rewrite length_app, (row_in_length _ _ _ _ Rt). reflexivity.
Qed.

(** X6: [scrape_tweets] keeps the store closed, whether it returns or
    raises, and every cell of a table it returns is a scalar or a reference
    to an object of the store. *)
Theorem scrape_tweets_closed (api : API) (query : string) (limit : Z) (h h' : heap)
    (r : result (DataFrame entry)) :
  heap_closed h ->
  scrape_tweets search api query limit h = (r, h') ->
  heap_closed h'
  /\ (forall df, r = Ok df -> Forall (Forall (entry_ok (length h'))) (df_data df)).
Proof.
  intros C. unfold scrape_tweets. unfold bind at 1.
  destruct (mapM tweet_to_row _ h) as [[rows|e] h1] eqn:M;
    destruct (mapM_tweet_to_row_closed _ _ _ _ C M) as [C1 _];
    [|intros [= <- <-]; split; [exact C1|discriminate]].
  intros D. destruct (DataFrame_new_closed _ _ _ _ _ C1 D) as [-> V].
  split; assumption.
Qed.


Lemma create_api_missing (environ : gmap string string) :
  (exists name,
     In name credential_names
     /\ (environ !! name = None \/ environ !! name = Some "")) ->
  create_api environ = Raise RuntimeError.
Proof.
  intros (name & I & M). apply truthy_missing in M.
  unfold create_api, getenv, all. cbn [forallb].
  unfold credential_names in I. cbn [In] in I.
  destruct I as [<-|[<-|[<-|[<-|[]]]]]; rewrite M;
    rewrite ?andb_false_r; reflexivity.
Qed.

(** In a closed store, a run that raises has failed on its reads. *)
Lemma tweet_to_row_raise_reads (h hx : heap) (tweet : val) (e : exn) :
  heap_closed h -> val_ok (length h) tweet ->
  tweet_to_row tweet h = (Raise e, hx) -> row_in h tweet = Raise e.
Proof.
  intros C V R. destruct (row_in h tweet) as [[cells tags]|e'] eqn:E.
  - rewrite (tweet_to_row_ok _ _ _ _ E) in R. discriminate.
  - destruct (tweet_to_row_fail h [] tweet e' C V (List.Forall_nil _) E) as (ext & _ & R').
    rewrite app_nil_r in R'. congruence.
Qed.

Lemma mapM_tweet_to_row_stops (h0 : heap) (bad : val) (rest : list val) (e : exn) :
  heap_closed h0 -> val_ok (length h0) bad -> row_in h0 bad = Raise e ->
  forall good h,
    grows h0 h -> Forall (readable h0) good ->
    exists h', mapM tweet_to_row (good ++ bad :: rest) h = (Raise e, h').
Proof.
  intros C V B. induction good as [|t good IH]; intros h (ext & -> & F) G.
  - destruct (tweet_to_row_fail h0 ext bad e C V F B) as (ext' & _ & R).
    simpl. unfold bind at 1. rewrite R. eauto.
  - apply Forall_cons in G. destruct G as [(cells & tags & Rt) G].
    pose proof (row_in_grows _ ext _ _ F Rt) as Rt'.
    simpl. unfold bind at 1. rewrite (tweet_to_row_ok _ _ _ _ Rt').
    destruct (IH ((h0 ++ ext)
                  ++ [OList []; OList tags;
                      OList (cells ++ [VRef (length (h0 ++ ext) + 1)])]))
      as (h' & M).
    + rewrite <- app_assoc. apply grows_app. apply Forall_app. split; [exact F|].
      repeat constructor.
    + exact G.
    + unfold bind at 1. rewrite M. eauto.
Qed.

(** X8: [scrape_tweets] stops at the first record that cannot be
    normalized and raises the very exception that [tweet_to_row] raises for
    that record alone; the records after it play no part. *)
Theorem scrape_tweets_first_failure (api : API) (query : string) (limit : Z)
    (h hx : heap) (good rest : list val) (bad : val) (e : exn) :
  heap_closed h -> val_ok (length h) bad ->
  Cursor_items (search api query "en" "extended") limit = good ++ bad :: rest ->
  Forall (readable h) good ->
  tweet_to_row bad h = (Raise e, hx) ->
  exists h', scrape_tweets search api query limit h = (Raise e, h').
Proof.
  intros C V I G B.
  pose proof (tweet_to_row_raise_reads _ _ _ _ C V B) as R.
  destruct (mapM_tweet_to_row_stops h bad rest e C V R good h (grows_refl h) G)
    as (h' & M).
  unfold scrape_tweets. rewrite I. unfold bind at 1. rewrite M. eauto.
Qed.

(** X9: with a credential missing [main] raises [RuntimeError] before
    anything else happens: the source is not asked, no file is written,
    nothing is printed, the store is untouched. *)
Theorem main_missing_credentials (environ : gmap string string) (args : arguments)
    (w : world) :
  (exists name,
     In name credential_names
     /\ (environ !! name = None \/ environ !! name = Some "")) ->
  main search cell_text environ args w = (Raise RuntimeError, w).
Proof.
  intros M. unfold main. rewrite (create_api_missing _ M). reflexivity.
Qed.

Lemma string_app_nil_r (s : string) : (s ++ "")%string = s.
Proof.
  induction s as [|c s IH]; [reflexivity|].
  change (String c s ++ "")%string with (String c (s ++ "")%string).
  rewrite IH. reflexivity.
Qed.

Lemma concat_empty_sep (x : string) (xs : list string) :
  String.concat "" (x :: xs) = (x ++ String.concat "" xs)%string.
Proof.
  destruct xs as [|y xs]; simpl; [rewrite string_app_nil_r|]; reflexivity.
Qed.

Lemma imap_no_index {A B} (f : A -> B) (l : list A) :
  imap (fun _ => f) l = map f l.
Proof. apply imap_const. Qed.

(** Without the index column the file is the header line and then one
    line per row. *)
Lemma to_csv_lines (h : heap) (df : DataFrame entry) :
  to_csv cell_text h df false
  = (csv_line (map csv_label (df_columns df))
     ++ String.concat "" (map (fun r => csv_line (map (cell_text h) r)) (df_data df)))%string.
Proof.
  unfold to_csv. cbn [app].
  rewrite (imap_no_index (fun r => map (cell_text h) r)).
  cbn [map]. rewrite concat_empty_sep. rewrite map_map. reflexivity.
Qed.

(** X10: with the four credentials and records that can all be read,
    [main] ends normally having printed its one line and written the output
    file, and nothing else.  The file is the header line of the nine names
    followed by one line per record the cursor yielded, in the cursor's
    order: the nine fields of a line are the texts of the cells that show what
    [tweet_to_row] gives for that record.  An older file of that name is
    replaced. *)
Theorem main_writes_table (environ : gmap string string) (args : arguments)
    (w : world) (api : API) :
  let items :=
    Cursor_items (search api (arg_query args) "en" "extended")
                 (default 100%Z (arg_limit args)) in
  let output := default "scraped_tweets.csv" (arg_output args) in
  create_api environ = Ok api ->
  Forall (readable (w_heap w)) items ->
  exists rows h',
    main search cell_text environ args w
    = (Ok tt,
       {| w_heap := h';
          w_files :=
            <[output :=
               ("username,description,location,following,followers,totaltweets,retweetcount,text,hashtags"
                ++ newline
                ++ String.concat ""
                     (map (fun row => csv_line (map (cell_text h') row)) rows))%string]>
              (w_files w);
          w_stdout := w_stdout w ++ ["Scraping has completed!"] |})
    /\ Forall2 (fun tweet row =>
                  exists r hx cells tags l,
                    tweet_to_row tweet (w_heap w) = (Ok r, hx)
                    /\ is_row hx r cells tags
                    /\ Forall2 shows (cells ++ [VRef l]) row
                    /\ h' !! l = Some (OList tags))
               items rows
    /\ Forall (fun row => length row = 9%nat) rows.
Proof.
  intros items output A R.
  destruct (scrape_tweets_shown api (arg_query args)
              (default 100%Z (arg_limit args)) (w_heap w) R)
    as (rows & h' & S & L & W).
  exists rows, h'. split; [|split; assumption].
  unfold main. rewrite A. rewrite S. unfold save_to_csv.
  rewrite to_csv_lines. cbn [df_columns df_data].
  repeat f_equal.
Qed.

End CollectorRuns.

Section CollectorRunsWitnesses.
Import Py Pandas CovidTweets Store.

Lemma scrape_tweets_closed_witness :
  heap_closed (snd (scrape_tweets Sample.search Sample.api "#covid" 5 Sample.store)).
Proof.
  refine (proj1 (scrape_tweets_closed Sample.search Sample.api "#covid" 5
                   Sample.store _ (fst (scrape_tweets Sample.search Sample.api
                                          "#covid" 5 Sample.store)) _ _)).
  - apply (bool_decide_unpack _). vm_compute. exact I.
  - reflexivity.
Defined.


Lemma scrape_tweets_first_failure_witness :
  exists h',
    scrape_tweets Sample.broken_search Sample.api "#covid" 5 Sample.store
    = (Raise AttributeError, h').
Proof.
  refine (scrape_tweets_first_failure Sample.broken_search Sample.api "#covid" 5
            Sample.store (snd (tweet_to_row (VRef 8) Sample.store))
            [VRef 7] [VRef 6] (VRef 8) AttributeError _ _ _ _ _).
  - apply (bool_decide_unpack _). vm_compute. exact I.
  - simpl. lia.
  - reflexivity.
  - repeat constructor. eexists _, _. reflexivity.
  - reflexivity.
Defined.

Lemma main_missing_credentials_witness :
  main Sample.search Sample.cell_text (delete "TWITTER_ACCESS_TOKEN" Sample.environ)
       {| arg_query := "#covid"; arg_limit := None; arg_output := None |}
       Sample.world0
  = (Raise RuntimeError, Sample.world0).
Proof.
  apply main_missing_credentials.
  exists "TWITTER_ACCESS_TOKEN". split; [simpl; tauto|]. left. reflexivity.
Defined.

Lemma main_writes_table_witness :
  exists rows h',
    main Sample.search Sample.cell_text Sample.environ
         {| arg_query := "#covid"; arg_limit := Some 2%Z; arg_output := None |}
         Sample.world0
    = (Ok tt,
       {| w_heap := h';
          w_files :=
            <["scraped_tweets.csv" :=
               ("username,description,location,following,followers,totaltweets,retweetcount,text,hashtags"
                ++ newline
                ++ String.concat ""
                     (map (fun row => csv_line (map (Sample.cell_text h') row)) rows))%string]>
              (w_files Sample.world0);
          w_stdout := w_stdout Sample.world0 ++ ["Scraping has completed!"] |})
    /\ Forall2 (fun tweet row =>
                  exists r hx cells tags l,
                    tweet_to_row tweet (w_heap Sample.world0) = (Ok r, hx)
                    /\ is_row hx r cells tags
                    /\ Forall2 shows (cells ++ [VRef l]) row
                    /\ h' !! l = Some (OList tags))
               [VRef 7; VRef 6] rows
    /\ Forall (fun row => length row = 9%nat) rows.
Proof.
  refine (main_writes_table Sample.search Sample.cell_text Sample.environ
            {| arg_query := "#covid"; arg_limit := Some 2%Z; arg_output := None |}
            Sample.world0 Sample.api _ _).
  - reflexivity.
  - repeat constructor; eexists _, _; reflexivity.
Defined.

End CollectorRunsWitnesses.

(** ** The sentiment script after the loader *)

Section SentimentRuns.
Import Py Pandas TransformerSentiment SentimentStage.

Variable C S : Type.
Variable pipeline :
  string -> string -> Z -> result (list C -> bool -> result (list (prediction S))).
Variable read_csv : gmap string string -> string -> result (DataFrame C).
Variable cell_text : out_cell C S -> string.

Lemma column_at_pairs {A B} (a b : A -> B) (l : list A) :
  column_at 0 (map (fun p => [a p; b p]) l) = map a l
  /\ column_at 1 (map (fun p => [a p; b p]) l) = map b l.
Proof.
  unfold column_at. induction l as [|x l [IH0 IH1]]; simpl; [auto|].
  rewrite IH0, IH1. auto.
Qed.

Lemma rows3_zip (texts : list C) (preds : list (prediction S)) :
  rows3 (map Text texts) (map (fun p => Label (label p)) preds)
        (map (fun p => Score (score p)) preds)
  = zip_with (fun t p => [Text t; Label (label p); Score (score p)]) texts preds.
Proof.
  revert preds. induction texts as [|t texts IH]; intros [|p preds]; simpl;
    try reflexivity.
  rewrite IH. reflexivity.
Qed.

(** The selections of the two columns of a frame built from at least one
    prediction. *)
Lemma output_frame_records (texts : list C) (p : prediction S)
    (preds : list (prediction S)) :
  output_frame C S texts (DataFrame_of_records (p :: preds))
  = if Nat.eqb (length texts) (length (p :: preds))
    then Ok (aligned texts (p :: preds))
    else Raise ValueError.
Proof.
  unfold output_frame, df_getitem, DataFrame_of_records. cbn [df_columns df_data].
  change (positions "label" ["label"; "score"] 0) with [0%nat].
  change (positions "score" ["label"; "score"] 0) with [1%nat].
  destruct (column_at_pairs (fun q : prediction S => @Label C S (label q))
                            (fun q => Score (score q)) (p :: preds)) as [-> ->].
  unfold DataFrame_of_dict. rewrite !length_map, Nat.eqb_refl, andb_true_r.
  destruct (Nat.eqb _ _); [|reflexivity].
  unfold aligned. rewrite rows3_zip. reflexivity.
Qed.

(** X11: for as many predictions as texts, and at least one, [save_results]
    writes under the output name, without an index column, the frame whose
    [i]-th row is the [i]-th text with the label and the score of the
    [i]-th prediction; all other files stay as they are. *)
Theorem save_results_aligned (texts : list C) (preds : list (prediction S))
    (output_file : string) (files : gmap string string) :
  texts <> [] -> length preds = length texts ->
  save_results C S cell_text texts (DataFrame_of_records preds) output_file files
  = Ok (<[output_file := to_csv_of cell_text (aligned texts preds) false]> files).
Proof.
  intros N L. destruct preds as [|p preds].
  - destruct texts; [congruence|discriminate].
  - unfold save_results. rewrite output_frame_records.
    rewrite L, Nat.eqb_refl. reflexivity.
Qed.

(** X12: predictions fewer or more than the texts are never paired off
    silently: [save_results] writes nothing and raises [ValueError], or
    [KeyError] when there is no prediction at all (the frame of results then
    has no [label] column). *)
Theorem save_results_misaligned (texts : list C) (preds : list (prediction S))
    (output_file : string) (files : gmap string string) :
  length preds <> length texts ->
  save_results C S cell_text texts (DataFrame_of_records preds) output_file files
  = Raise (match preds with [] => KeyError | _ => ValueError end).
Proof.
  intros L. destruct preds as [|p preds]; [reflexivity|].
  unfold save_results. rewrite output_frame_records.
  destruct (Nat.eqb_spec (length texts) (length (p :: preds))) as [E|_];
    [congruence|reflexivity].
Qed.

(** X13: when the classifier answers with no prediction at all, as for an
    input file with a [text] column and no rows, the frame of results has no
    [label] column and [main] ends with [KeyError], nothing written and
    nothing printed. *)
Theorem main_no_predictions (args : arguments) (w : world) (texts : list C)
    (classifier : list C -> bool -> result (list (prediction S))) :
  load_tweets C (read_csv (w_files w)) (arg_input args) = Ok texts ->
  pipeline "sentiment-analysis" MODEL_NAME (-1) = Ok classifier ->
  classifier texts true = Ok [] ->
  main C S pipeline read_csv cell_text args w = (Raise KeyError, w).
Proof.
  intros L P K. unfold main. rewrite L.
  unfold analyze_sentiment. rewrite P, K. reflexivity.
Qed.

(** X14: an input without a [text] column ends [main] with [RuntimeError]
    whatever the classifier is or does; nothing is written or printed. *)
Theorem main_without_text_column (args : arguments) (w : world) (df : DataFrame C) :
  read_csv (w_files w) (arg_input args) = Ok df ->
  ~ In "text" (df_columns df) ->
  main C S pipeline read_csv cell_text args w = (Raise RuntimeError, w).
Proof.
  intros R N. unfold main, load_tweets. rewrite R.
  destruct (has_column df "text") eqn:H.
  - apply has_column_In in H. contradiction.
  - reflexivity.
Qed.

(** X15: a whole run: the texts loaded, one prediction per text and at
    least one text.  [main] writes the aligned frame under the output name
    (by default [sentiment_results.csv]), leaves every other file alone and
    prints the one line that names the output. *)
Theorem main_writes_results (args : arguments) (w : world) (texts : list C)
    (classifier : list C -> bool -> result (list (prediction S)))
    (preds : list (prediction S)) :
  let output := default "sentiment_results.csv" (arg_output args) in
  load_tweets C (read_csv (w_files w)) (arg_input args) = Ok texts ->
  pipeline "sentiment-analysis" MODEL_NAME (-1) = Ok classifier ->
  classifier texts true = Ok preds ->
  texts <> [] -> length preds = length texts ->
  exists w',
    main C S pipeline read_csv cell_text args w = (Ok tt, w')
    /\ w_files w' !! output = Some (to_csv_of cell_text (aligned texts preds) false)
    /\ (forall path, path <> output -> w_files w' !! path = w_files w !! path)
    /\ w_stdout w'
       = w_stdout w ++ [("Sentiment analysis complete: " ++ output)%string]
    /\ length (df_data (aligned texts preds)) = length texts.
Proof.
  intros output L P K N E.
  assert (Sv : save_results C S cell_text texts (DataFrame_of_records preds) output
                 (w_files w)
               = Ok (<[output := to_csv_of cell_text (aligned texts preds) false]>
                       (w_files w))).
  { destruct preds as [|p preds].
    - destruct texts; [congruence|discriminate].
    - unfold save_results. rewrite output_frame_records.
      rewrite E, Nat.eqb_refl. reflexivity. }
  eexists. split; [|split; [|split; [|split]]].
  - unfold main. rewrite L. unfold analyze_sentiment. rewrite P, K.
    fold output. rewrite Sv. reflexivity.
  - simpl. apply lookup_insert_eq.
  - intros path Np. simpl. apply lookup_insert_ne. congruence.
  - reflexivity.
  - simpl. rewrite length_zip_with. lia.
Qed.

End SentimentRuns.

Section CrossScript.
Import Py Pandas CovidTweets TransformerSentiment.

Context {cell : Type}.

(** X16: a file that pandas parses into the nine columns [scrape_tweets]
    writes is accepted by [load_tweets], which returns the eighth cell of
    every row, the tweet texts, in row order. *)
Theorem load_tweets_reads_scraped (read_csv : string -> result (DataFrame cell))
    (filename : string) (df : DataFrame cell) :
  read_csv filename = Ok df ->
  df_columns df = columns ->
  Forall (fun r => length r = 9%nat) (df_data df) ->
  exists texts,
    load_tweets cell read_csv filename = Ok texts
    /\ Forall2 (fun r t => r !! 7%nat = Some t) (df_data df) texts.
Proof.
  intros R Cs W. unfold load_tweets. rewrite R.
  unfold has_column, df_getitem. rewrite Cs.
  change (existsb (String.eqb "text") columns) with true.
  change (positions "text" columns 0) with [7%nat]. simpl.
  eexists. split; [reflexivity|].
  eapply column_at_rows; [|exact W]. lia.
Qed.

End CrossScript.

Section SentimentWitnesses.
Import Py Pandas TransformerSentiment SentimentStage.

Lemma save_results_aligned_witness :
  save_results string nat Sample2.out_text ["A"; "B"]
    (DataFrame_of_records
       [ {| label := "positive"; score := 9%nat |};
         {| label := "negative"; score := 8%nat |} ])
    "out.csv" ∅
  = Ok (<["out.csv" :=
           to_csv_of Sample2.out_text
             (aligned ["A"; "B"]
                [ {| label := "positive"; score := 9%nat |};
                  {| label := "negative"; score := 8%nat |} ]) false]> ∅).
Proof.
  apply (save_results_aligned string nat Sample2.out_text); [discriminate|reflexivity].
Defined.

Lemma save_results_misaligned_witness :
  save_results string nat Sample2.out_text ["A"]
    (DataFrame_of_records
       [ {| label := "positive"; score := 9%nat |};
         {| label := "negative"; score := 8%nat |} ])
    "out.csv" ∅
  = Raise ValueError
  /\ save_results string nat Sample2.out_text ["A"] (DataFrame_of_records [])
       "out.csv" ∅
     = Raise KeyError.
Proof.
  split.
  - apply (save_results_misaligned string nat Sample2.out_text ["A"]
             [ {| label := "positive"; score := 9%nat |};
               {| label := "negative"; score := 8%nat |} ]).
    simpl. lia.
  - apply (save_results_misaligned string nat Sample2.out_text ["A"] []).
    simpl. lia.
Defined.

Lemma main_no_predictions_witness :
  main string nat Sample2.pipeline Sample2.read_csv Sample2.out_text
       {| arg_input := "empty.csv"; arg_output := None |} Sample2.world0
  = (Raise KeyError, Sample2.world0).
Proof.
  apply (main_no_predictions string nat Sample2.pipeline Sample2.read_csv
           Sample2.out_text _ _ [] Sample2.neutral); reflexivity.
Defined.

Lemma main_without_text_column_witness :
  main string nat Sample2.pipeline Sample2.read_csv Sample2.out_text
       {| arg_input := "notext.csv"; arg_output := None |} Sample2.world0
  = (Raise RuntimeError, Sample2.world0).
Proof.
  apply (main_without_text_column string nat Sample2.pipeline Sample2.read_csv
           Sample2.out_text _ _
           {| df_columns := ["username"]; df_data := [["alice"]] |}).
  - reflexivity.
  - simpl. intros [H|[]]. discriminate.
Defined.

Lemma main_writes_results_witness :
  exists w',
    main string nat Sample2.pipeline Sample2.read_csv Sample2.out_text
         {| arg_input := "tweets.csv"; arg_output := None |} Sample2.world0
    = (Ok tt, w')
    /\ w_stdout w' = ["Sentiment analysis complete: sentiment_results.csv"].
Proof.
  destruct (main_writes_results string nat Sample2.pipeline Sample2.read_csv
              Sample2.out_text
              {| arg_input := "tweets.csv"; arg_output := None |} Sample2.world0
              ["A"; "B"] Sample2.neutral
              [ {| label := "neutral"; score := 1%nat |};
                {| label := "neutral"; score := 1%nat |} ])
    as (w' & M & _ & _ & O & _); try reflexivity; [discriminate|].
  exists w'. split; [exact M|exact O].
Defined.

Lemma load_tweets_reads_scraped_witness :
  exists texts,
    load_tweets string Sample2.read_scraped "scraped_tweets.csv" = Ok texts
    /\ Forall2 (fun r t => r !! 7%nat = Some t) (df_data Sample2.scraped_csv) texts.
Proof.
  apply (load_tweets_reads_scraped Sample2.read_scraped "scraped_tweets.csv"
           Sample2.scraped_csv); [reflexivity|reflexivity|].
  repeat constructor.
Defined.

End SentimentWitnesses.
